(** * Simple notes app: the API client and the application state controller

    A shallow embedding of [notes_frontend/src/apiClient.js] and of the
    [App] component (selection, draft, save, delete, refresh and the sorted
    view), with the properties of its specification.

    Conventions of the embedding.
    - A JavaScript value is a [jsval]: the values JSON produces, plus
      [undefined].  Numbers are the integers they denote (ids and epoch
      timestamps); fractional numbers are outside the embedding, and so are
      the integers no double holds.  The string of a number is exact for the
      safe integers (up to 2^53 in magnitude); beyond them the engine prints
      the shortest digits that read back, and an exponent from 10^21.
    - A string is its UTF-8 byte sequence, an unpaired surrogate being
      written as the three bytes of its code point (lead byte ED, then a
      byte from A0 up).  Two JavaScript strings are [===] exactly when these
      sequences are equal.
    - An object is a finite map from property names to values; only own
      properties are looked up, which is exact for the names this program
      reads, none of which is defined on a built-in prototype.  The string
      of an object is that of a plain one; an object with an own [toString]
      or [valueOf] property, whose conversion calls it or throws, is outside
      the embedding.
    - Built-ins whose result the host decides ([Date.parse],
      [localeCompare], [trim] and the error it throws on a value that is not
      a string, [JSON.parse], [JSON.stringify], [toLocaleString]) are
      variables of the sections that use them. *)

From stdpp Require Import gmap strings list fin_maps.
From Stdlib Require Import ZArith Lia Ascii DecimalString OrdersEx Sorting.Sorted Permutation.

Set Warnings "-register-all".

Open Scope string_scope.
Open Scope Z_scope.

(** ** Values *)

Inductive jsval : Type :=
| JUndef
| JNull
| JBool (b : bool)
| JNum (n : Z)
| JStr (s : string)
| JArr (l : list jsval)
| JObj (o : gmap string jsval).

(** An object, as the program holds its notes. *)
Abbreviation obj := (gmap string jsval).

(** [v == null], that is: [v] is [null] or [undefined]. *)
Definition isNullish (v : jsval) : bool :=
  match v with
  | JUndef | JNull => true
  | _ => false
  end.

(** ToBoolean. *)
Definition truthy (v : jsval) : bool :=
  match v with
  | JUndef | JNull => false
  | JBool b => b
  | JNum n => negb (Z.eqb n 0)
  | JStr s => negb (String.eqb s "")
  | JArr _ | JObj _ => true
  end.

(** [a ?? b] *)
Definition nullish_or (a b : jsval) : jsval := if isNullish a then b else a.

(** [a || b] *)
Definition falsy_or (a b : jsval) : jsval := if truthy a then a else b.

Declare Scope js_scope.
Delimit Scope js_scope with js.
Infix "??" := nullish_or (at level 51, left associativity) : js_scope.
Infix "|||" := falsy_or (at level 50, left associativity) : js_scope.
Open Scope js_scope.

(** [o.k] on an object. *)
Definition prop (o : obj) (k : string) : jsval := default JUndef (o !! k).

(** [v?.k] on any value: [undefined] on [null] and [undefined], and on the
    primitives and arrays, which have none of the properties read here. *)
Definition getProp (v : jsval) (k : string) : jsval :=
  match v with
  | JObj o => prop o k
  | _ => JUndef
  end.

(** [o?.k] where [o] is an object or [null]. *)
Definition optProp (o : option obj) (k : string) : jsval :=
  match o with
  | Some n => prop n k
  | None => JUndef
  end.

(** [l.join(sep)] on strings. *)
Fixpoint joinWith (sep : string) (l : list string) : string :=
  match l with
  | [] => ""
  | [x] => x
  | x :: rest => String.append x (String.append sep (joinWith sep rest))
  end.

(** [String(v)].  A number prints its decimal digits, as Number::toString
    does for the safe integers; an array joins its elements with a comma,
    [null] and [undefined] elements printing as the empty string; an object
    prints as a plain object does (one without an own [toString] or
    [valueOf]). *)
Fixpoint ToString (v : jsval) : string :=
  match v with
  | JUndef => "undefined"
  | JNull => "null"
  | JBool true => "true"
  | JBool false => "false"
  | JNum n => NilZero.string_of_int (Z.to_int n)
  | JStr s => s
  | JArr l => joinWith "," (map (fun x => if isNullish x then "" else ToString x) l)
  | JObj _ => "[object Object]"
  end.

(** [String(a) === String(b)] *)
Definition sameString (a b : jsval) : bool := String.eqb (ToString a) (ToString b).

(** ** Normalization (App.js, [normalizeNote]) *)

Definition ID_ALIASES : list string := ["id"; "_id"; "noteId"; "uuid"].

(** The object literal [{ id, title, content, createdAt, updatedAt }]. *)
Definition mkNote (id title content createdAt updatedAt : jsval) : obj :=
  <["id" := id]> (<["title" := title]> (<["content" := content]>
  (<["createdAt" := createdAt]> (<["updatedAt" := updatedAt]> ∅)))).

Definition normalizeNote (raw : jsval) : obj :=
  let id := getProp raw "id" ?? getProp raw "_id" ?? getProp raw "noteId" ?? getProp raw "uuid" in
  mkNote id
    (getProp raw "title" ?? JStr "")
    (getProp raw "content" ?? JStr "")
    (getProp raw "createdAt" ?? getProp raw "created_at" ?? JNull)
    (getProp raw "updatedAt" ?? getProp raw "updated_at" ?? JNull).

(** [(data || []).map(normalizeNote).filter((n) => n.id != null)], from
    [refreshNotes]. *)
Definition hasId (n : obj) : bool := negb (isNullish (prop n "id")).

Definition normalizeAll (data : list jsval) : list obj :=
  List.filter hasId (map normalizeNote data).

(** A raw record carries an identifier when one of the aliases holds a value
    other than [null] and [undefined]. *)
Definition carriesId (raw : jsval) : bool :=
  existsb (fun k => negb (isNullish (getProp raw k))) ID_ALIASES.

(** The canonical shape: exactly the five fields, with an id, texts
    defaulted, and absent timestamps [null]. *)
Definition canonical (n : obj) : Prop :=
  exists id title content created updated,
    n = mkNote id title content created updated /\
    id <> JNull /\ isNullish title = false /\ isNullish content = false /\
    created <> JUndef /\ updated <> JUndef.

(** ** The sorted view (App.js, [sortedNotes]) *)

(** [Array.prototype.sort(cmp)].  A comparator value [v] asks for [x] after
    [y] when [v > 0]; [NaN], here [None], counts as [+0].  The sort is
    stable, and for a consistent comparator its result is the only stable
    sorted arrangement, which the insertion below computes.  For an
    inconsistent comparator the order is left to the engine, and the
    insertion below is one arrangement among those an engine may give: the
    comparator of [sortedNotes] is inconsistent once a date is invalid
    ([NaN] ties with every time), so the order of the view is stated below
    for valid dates only. *)
Section ArraySort.
Context {A : Type}.
Variable cmp : A -> A -> option Z.

Definition keepsBefore (x y : A) : bool :=
  match cmp x y with
  | Some v => Z.leb v 0
  | None => true
  end.

Fixpoint insertSorted (x : A) (l : list A) : list A :=
  match l with
  | [] => [x]
  | y :: rest => if keepsBefore x y then x :: y :: rest else y :: insertSorted x rest
  end.

Definition arraySort (l : list A) : list A := foldr insertSorted [] l.
End ArraySort.

Definition MAX_TIME : Z := 8640000000000000.

(** TimeClip of an integral time value; [None] is [NaN]. *)
Definition TimeClip (t : Z) : option Z :=
  if Z.leb (Z.abs t) MAX_TIME then Some t else None.

Section SortedView.
(** [Date.parse]: the time value of a date string, [None] for [NaN]. *)
Variable Date_parse : string -> option Z.
(** [String.prototype.localeCompare] with the default locale. *)
Variable localeCompare : string -> string -> Z.

(** [new Date(v).getTime()]: a string is parsed, an object or array is
    first turned into its string, any other value into its number. *)
Definition getTime (v : jsval) : option Z :=
  match v with
  | JStr s => Date_parse s ≫= TimeClip
  | JArr _ | JObj _ => Date_parse (ToString v) ≫= TimeClip
  | JNum n => TimeClip n
  | JBool true => Some 1
  | JBool false => Some 0
  | JNull => Some 0
  | JUndef => None
  end.

(** [a.updatedAt || a.createdAt || 0] *)
Definition effectiveTimestamp (a : obj) : jsval :=
  prop a "updatedAt" ||| prop a "createdAt" ||| JNum 0.

Definition noteTime (a : obj) : option Z := getTime (effectiveTimestamp a).

(** [String(a.title || "")] *)
Definition titleKey (a : obj) : string := ToString (prop a "title" ||| JStr "").

(** The comparator of [sortedNotes].  With a [NaN] on either side
    [bt !== at] holds and [bt - at] is [NaN]. *)
Definition compareNotes (a b : obj) : option Z :=
  match noteTime a, noteTime b with
  | Some at_, Some bt =>
      if negb (Z.eqb bt at_) then Some (bt - at_)
      else Some (localeCompare (titleKey a) (titleKey b))
  | _, _ => None
  end.

Definition sortedNotes (notes : list obj) : list obj := arraySort compareNotes notes.

(** The effective timestamp in the words of the specification:
    [updatedAt ?? createdAt ?? 0]. *)
Definition specEffectiveTimestamp (a : obj) : jsval :=
  prop a "updatedAt" ?? prop a "createdAt" ?? JNum 0.

Definition specNoteTime (a : obj) : option Z := getTime (specEffectiveTimestamp a).

(** The order of the view on notes with valid dates: later effective
    timestamp first; on equal timestamps, titles ascending under
    [localeCompare]. *)
Definition viewOrder (a b : obj) : Prop :=
  exists ta tb : Z,
    noteTime a = Some ta /\ noteTime b = Some tb /\
    (tb < ta \/ (tb = ta /\ localeCompare (titleKey a) (titleKey b) <= 0)).
End SortedView.

(** A list is in descending order of a key when no later element has a
    strictly larger key than an earlier one. *)
Definition descendingBy (key : obj -> option Z) (l : list obj) : Prop :=
  forall (i j : nat) (x y : obj) (tx ty : Z),
    (i < j)%nat -> l !! i = Some x -> l !! j = Some y ->
    key x = Some tx -> key y = Some ty -> ty <= tx.

(** ** Effects: requests, confirmations and state updates *)

Record Request := mkRequest {
  path : string;
  method : string;
  body : option jsval   (* the value whose JSON text is sent *)
}.

(** How [request(path, options)] settles: with the parsed body, or by
    throwing (transport failure, timeout, a status outside 2xx, or a JSON
    body that does not parse). *)
Inductive Outcome :=
| Resolved (data : jsval)
| Rejected (err : jsval).

Record State := mkState {
  notes : list obj;
  selectedId : jsval;
  editorTitle : jsval;
  editorContent : jsval;
  isDirty : bool;
  isLoading : bool;
  isSaving : bool;
  isDeleting : bool;
  error : jsval;
  info : string
}.

(** The state setters.  [setNotes] and [setSelectedId] take an updater of
    the value current when the update is applied. *)
Inductive Update :=
| setNotes (f : list obj -> list obj)
| setSelectedId (f : jsval -> jsval)
| setEditorTitle (v : jsval)
| setEditorContent (v : jsval)
| setIsDirty (b : bool)
| setIsLoading (b : bool)
| setIsSaving (b : bool)
| setIsDeleting (b : bool)
| setError (v : jsval)
| setInfo (s : string).

Definition applyUpdate (u : Update) (st : State) : State :=
  match u with
  | setNotes f => mkState (f (notes st)) (selectedId st) (editorTitle st) (editorContent st)
      (isDirty st) (isLoading st) (isSaving st) (isDeleting st) (error st) (info st)
  | setSelectedId f => mkState (notes st) (f (selectedId st)) (editorTitle st) (editorContent st)
      (isDirty st) (isLoading st) (isSaving st) (isDeleting st) (error st) (info st)
  | setEditorTitle v => mkState (notes st) (selectedId st) v (editorContent st)
      (isDirty st) (isLoading st) (isSaving st) (isDeleting st) (error st) (info st)
  | setEditorContent v => mkState (notes st) (selectedId st) (editorTitle st) v
      (isDirty st) (isLoading st) (isSaving st) (isDeleting st) (error st) (info st)
  | setIsDirty b => mkState (notes st) (selectedId st) (editorTitle st) (editorContent st)
      b (isLoading st) (isSaving st) (isDeleting st) (error st) (info st)
  | setIsLoading b => mkState (notes st) (selectedId st) (editorTitle st) (editorContent st)
      (isDirty st) b (isSaving st) (isDeleting st) (error st) (info st)
  | setIsSaving b => mkState (notes st) (selectedId st) (editorTitle st) (editorContent st)
      (isDirty st) (isLoading st) b (isDeleting st) (error st) (info st)
  | setIsDeleting b => mkState (notes st) (selectedId st) (editorTitle st) (editorContent st)
      (isDirty st) (isLoading st) (isSaving st) b (error st) (info st)
  | setError v => mkState (notes st) (selectedId st) (editorTitle st) (editorContent st)
      (isDirty st) (isLoading st) (isSaving st) (isDeleting st) v (info st)
  | setInfo s => mkState (notes st) (selectedId st) (editorTitle st) (editorContent st)
      (isDirty st) (isLoading st) (isSaving st) (isDeleting st) (error st) s
  end.

(** A computation of the program: it returns, throws, awaits a request,
    asks [window.confirm], or sets state and goes on. *)
Inductive Eff (A : Type) : Type :=
| Ret (a : A)
| Throw (e : jsval)
| Await (r : Request) (k : Outcome -> Eff A)
| Confirm (msg : string) (k : bool -> Eff A)
| SetState (u : Update) (k : Eff A).

Arguments Ret {A} a.
Arguments Throw {A} e.
Arguments Await {A} r k.
Arguments Confirm {A} msg k.
Arguments SetState {A} u k.

Fixpoint bind {A B : Type} (m : Eff A) (f : A -> Eff B) : Eff B :=
  match m with
  | Ret a => f a
  | Throw e => Throw e
  | Await r k => Await r (fun o => bind (k o) f)
  | Confirm msg k => Confirm msg (fun b => bind (k b) f)
  | SetState u k => SetState u (bind k f)
  end.

(** [try { m } catch (e) { h e }] *)
Fixpoint catch {A : Type} (m : Eff A) (h : jsval -> Eff A) : Eff A :=
  match m with
  | Ret a => Ret a
  | Throw e => h e
  | Await r k => Await r (fun o => catch (k o) h)
  | Confirm msg k => Confirm msg (fun b => catch (k b) h)
  | SetState u k => SetState u (catch k h)
  end.

(** How a computation completes. *)
Inductive Completion (A : Type) : Type :=
| Normal (a : A)
| Abrupt (e : jsval).

Arguments Normal {A} a.
Arguments Abrupt {A} e.

(** [try { m } finally { fin }] *)
Definition finally {A : Type} (m : Eff A) (fin : Eff unit) : Eff A :=
  bind (catch (bind m (fun a => Ret (Normal a))) (fun e => Ret (Abrupt e)))
       (fun c => bind fin (fun _ => match c with
                                    | Normal a => Ret a
                                    | Abrupt e => Throw e
                                    end)).

Declare Scope eff_scope.
Delimit Scope eff_scope with eff.
Notation "x <- m ;; k" := (bind m (fun x => k))
  (at level 100, m at next level, right associativity) : eff_scope.
Notation "m ;; k" := (bind m (fun _ => k))
  (at level 100, right associativity) : eff_scope.
Open Scope eff_scope.

Definition emit (u : Update) : Eff unit := SetState u (Ret tt).

(** What the environment did during a run, oldest first. *)
Inductive Event :=
| Requested (r : Request) (o : Outcome)
| Asked (msg : string) (answer : bool).

(** The environment: the server behind [fetch] and the user behind
    [window.confirm], each deciding from what happened so far. *)
Record Env := mkEnv {
  respond : list Event -> Request -> Outcome;
  confirms : list Event -> string -> bool
}.

Fixpoint run {A : Type} (m : Eff A) (env : Env) (tr : list Event) (st : State)
  : Completion A * list Event * State :=
  match m with
  | Ret a => (Normal a, tr, st)
  | Throw e => (Abrupt e, tr, st)
  | Await r k =>
      let o := respond env tr r in
      run (k o) env (tr ++ [Requested r o]) st
  | Confirm msg k =>
      let b := confirms env tr msg in
      run (k b) env (tr ++ [Asked msg b]) st
  | SetState u k => run k env tr (applyUpdate u st)
  end.

(** ** The API client (apiClient.js) *)

(** The characters [encodeURIComponent] leaves as they are: ASCII letters,
    digits, and [- _ . ! ~ * ' ( )]. *)
Definition isUnreserved (c : ascii) : bool :=
  let n := N_of_ascii c in
  (N.leb 48 n && N.leb n 57) || (N.leb 65 n && N.leb n 90) || (N.leb 97 n && N.leb n 122)
  || N.eqb n 45 || N.eqb n 95 || N.eqb n 46 || N.eqb n 33 || N.eqb n 126
  || N.eqb n 42 || N.eqb n 39 || N.eqb n 40 || N.eqb n 41.

Definition hexDigit (n : N) : ascii :=
  ascii_of_N (if N.ltb n 10 then 48 + n else 55 + n)%N.

(** [%XX] for one byte of the UTF-8 form. *)
Definition percentEncode (c : ascii) (rest : string) : string :=
  let n := N_of_ascii c in
  String "%" (String (hexDigit (n / 16)) (String (hexDigit (n mod 16)) rest)).

Fixpoint encodeBytes (s : string) : string :=
  match s with
  | EmptyString => EmptyString
  | String c rest =>
      if isUnreserved c then String c (encodeBytes rest)
      else percentEncode c (encodeBytes rest)
  end.



(** Whether a string holds an unpaired surrogate. *)
Fixpoint hasLoneSurrogate (s : string) : bool :=
  match s with
  | EmptyString => false
  | String c rest =>
      (N.eqb (N_of_ascii c) 237 &&
       match rest with
       | String d _ => N.leb 160 (N_of_ascii d)
       | EmptyString => false
       end)
      || hasLoneSurrogate rest
  end.

(** The URIError of the URI functions (message as V8 words it). *)
Definition URIError : jsval := JObj (<["message" := JStr "URI malformed"]> ∅).

(** [encodeURIComponent(v)]: the argument is converted to a string; an
    unpaired surrogate in it throws a URIError; otherwise every byte of the
    UTF-8 form other than an unreserved character is written as a percent
    escape. *)
Definition encodeURIComponent (v : jsval) : Completion string :=
  let s := ToString v in
  if hasLoneSurrogate s then Abrupt URIError else Normal (encodeBytes s).

(** A completion as a computation. *)
Definition lift {A : Type} (c : Completion A) : Eff A :=
  match c with
  | Normal a => Ret a
  | Abrupt e => Throw e
  end.

Definition NOTES_BASE_CANDIDATES : list string := ["/notes"; "/api/notes"].

(** [await request(path, { method, body })] *)
Definition request (p : string) (m : string) (b : option jsval) : Eff jsval :=
  Await (mkRequest p m b)
        (fun o => match o with
                  | Resolved data => Ret data
                  | Rejected err => Throw err
                  end).

(** The loop shared by the four operations:
    [let lastErr; for (const base of bases) { try { return attempt(base) }
     catch (e) { lastErr = e } } throw lastErr]. *)
Fixpoint tryCandidates {A : Type} (bases : list string) (attempt : string -> Eff A)
    (lastErr : jsval) : Eff A :=
  match bases with
  | [] => Throw lastErr
  | base :: rest => catch (attempt base) (fun e => tryCandidates rest attempt e)
  end.

(** [Array.isArray(v)], with the elements when it holds. *)
Definition asArray (v : jsval) : option (list jsval) :=
  match v with
  | JArr l => Some l
  | _ => None
  end.

(** What [listNotes] returns for a success body. *)
Definition listShape (data : jsval) : list jsval :=
  match asArray data with
  | Some l => l
  | None =>
      if truthy data then
        match asArray (getProp data "notes") with
        | Some l => l
        | None => []
        end
      else []
  end.

Definition listNotes : Eff (list jsval) :=
  tryCandidates NOTES_BASE_CANDIDATES
    (fun base => data <- request base "GET" None ;; Ret (listShape data)) JUndef.

Definition createNote (note : jsval) : Eff jsval :=
  tryCandidates NOTES_BASE_CANDIDATES
    (fun base => request base "POST" (Some note)) JUndef.

(** [`${base}/${encoded}`] *)
Definition joinPath (base encoded : string) : string :=
  String.append base (String.append "/" encoded).

(** [`${base}/${encodeURIComponent(id)}`] *)
Definition notePath (base : string) (id : jsval) : Eff string :=
  encoded <- lift (encodeURIComponent id) ;; Ret (joinPath base encoded).

Definition updateNote (id : jsval) (note : jsval) : Eff jsval :=
  tryCandidates NOTES_BASE_CANDIDATES
    (fun base => p <- notePath base id ;; request p "PUT" (Some note)) JUndef.

Definition deleteNote (id : jsval) : Eff jsval :=
  tryCandidates NOTES_BASE_CANDIDATES
    (fun base => p <- notePath base id ;; request p "DELETE" None) JUndef.

(** ** The state controller (App.js, [App]) *)

(** [notes.find((n) => String(n.id) === String(selectedId)) || null] *)
Definition selectedNote (s : State) : option obj :=
  List.find (fun n => sameString (prop n "id") (selectedId s)) (notes s).

(** [e?.message || fallback] *)
Definition messageOf (e : jsval) (fallback : string) : jsval :=
  getProp e "message" ||| JStr fallback.

(** [{ ...n, ...m }]: the properties of [n], overwritten by those of [m]. *)
Definition spread (n m : obj) : obj := m ∪ n.

(** [list[0]?.id ?? null] *)
Definition firstId (l : list obj) : jsval := optProp (head l) "id" ?? JNull.

Definition refreshNotes (s : State) (keepSelection : bool) : Eff unit :=
  emit (setError (JStr "")) ;;
  catch
    (data <- listNotes ;;
     let normalized := normalizeAll data in
     emit (setNotes (fun _ => normalized)) ;;
     if negb keepSelection then
       emit (setSelectedId (fun _ => firstId normalized))
     else if isNullish (selectedId s) && Nat.ltb 0 (length normalized) then
       emit (setSelectedId (fun _ => optProp (head normalized) "id"))
     else if negb (isNullish (selectedId s)) then
       let stillExists :=
         existsb (fun n => sameString (prop n "id") (selectedId s)) normalized in
       if negb stillExists then emit (setSelectedId (fun _ => firstId normalized))
       else Ret tt
     else Ret tt)
    (fun e => emit (setError (messageOf e "Failed to load notes."))).

Definition onSelectNote (s : State) (id : jsval) : Eff unit :=
  if isDirty s && negb (isNullish (selectedId s)) && negb (sameString id (selectedId s)) then
    Confirm "You have unsaved changes. Discard them and switch notes?"
      (fun ok => if negb ok then Ret tt else emit (setSelectedId (fun _ => id)))
  else emit (setSelectedId (fun _ => id)).

Definition newNoteBody (s : State) : Eff unit :=
  emit (setIsSaving true) ;;
  finally
    (catch
       (created <- createNote (JObj (<["title" := JStr "Untitled"]> (<["content" := JStr ""]> ∅))) ;;
        let normalized := normalizeNote (created ||| JObj ∅) in
        (if isNullish (prop normalized "id") then refreshNotes s false
         else emit (setNotes (fun prev => normalized :: prev)) ;;
              emit (setSelectedId (fun _ => prop normalized "id"))) ;;
        emit (setEditorTitle (JStr "Untitled")) ;;
        emit (setEditorContent (JStr "")) ;;
        emit (setIsDirty true) ;;
        emit (setInfo "New note created."))
       (fun e => emit (setError (messageOf e "Failed to create note."))))
    (emit (setIsSaving false)).

Definition onNewNote (s : State) : Eff unit :=
  emit (setError (JStr "")) ;;
  emit (setInfo "") ;;
  if isDirty s && negb (isNullish (selectedId s)) then
    Confirm "You have unsaved changes. Discard them and create a new note?"
      (fun ok => if negb ok then Ret tt else newNoteBody s)
  else newNoteBody s.

Section Controller.
(** [String.prototype.trim] *)
Variable trim : string -> string.
(** The TypeError that [v.trim()] throws for a value [v] that is not a
    string; the engine words it, and differently for [null] and
    [undefined]. *)
Variable trimTypeError : jsval -> jsval.

(** [editorTitle.trim()]: a value other than a string has no [trim]
    method and the call throws a TypeError. *)
Definition trimTitle (v : jsval) : Eff jsval :=
  match v with
  | JStr t => Ret (JStr (trim t))
  | _ => Throw (trimTypeError v)
  end.

Definition savePayload (title : jsval) (content : jsval) : jsval :=
  JObj (<["title" := title ||| JStr "Untitled"]> (<["content" := content]> ∅)).

(** The update [onSave] applies to the collection for a response that
    carries an id. *)
Definition mergeSaved (normalized : obj) (prev : list obj) : list obj :=
  map (fun n => if sameString (prop n "id") (prop normalized "id")
                then spread n normalized else n) prev.

Definition onSave (s : State) : Eff unit :=
  if negb (truthy (optProp (selectedNote s) "id")) then Ret tt
  else
    emit (setError (JStr "")) ;;
    emit (setInfo "") ;;
    emit (setIsSaving true) ;;
    finally
      (catch
         (title <- trimTitle (editorTitle s) ;;
          let payload := savePayload title (editorContent s) in
          updated <- updateNote (optProp (selectedNote s) "id") payload ;;
          let normalized := normalizeNote (updated ||| JObj ∅) in
          (if isNullish (prop normalized "id") then refreshNotes s true
           else emit (setNotes (mergeSaved normalized))) ;;
          emit (setIsDirty false) ;;
          emit (setInfo "Saved."))
         (fun e => emit (setError (messageOf e "Failed to save note."))))
      (emit (setIsSaving false)).
End Controller.

(** The notes [onDelete] keeps: [l.filter((n) => String(n.id) !== String(id))]. *)
Definition withoutId (id : jsval) (l : list obj) : list obj :=
  List.filter (fun n => negb (sameString (prop n "id") id)) l.

Definition onDelete (s : State) : Eff unit :=
  let id := optProp (selectedNote s) "id" in
  if negb (truthy id) then Ret tt
  else
    emit (setError (JStr "")) ;;
    emit (setInfo "") ;;
    Confirm "Delete this note? This cannot be undone."
      (fun ok =>
         if negb ok then Ret tt
         else
           emit (setIsDeleting true) ;;
           finally
             (catch
                (deleteNote id ;;
                 emit (setNotes (fun prev => withoutId id prev)) ;;
                 emit (setSelectedId (fun prevSelected =>
                         if negb (sameString prevSelected id) then prevSelected
                         else firstId (withoutId id (notes s)))) ;;
                 emit (setIsDirty false) ;;
                 emit (setInfo "Deleted."))
                (fun e => emit (setError (messageOf e "Failed to delete note."))))
             (emit (setIsDeleting false))).

Definition onEditorTitleChange (v : jsval) : Eff unit :=
  emit (setEditorTitle v) ;; emit (setIsDirty true).

Definition onEditorContentChange (v : jsval) : Eff unit :=
  emit (setEditorContent v) ;; emit (setIsDirty true).

(** The effect on [selectedNote]: when the selected note changes, the
    editor is loaded from it and the draft is clean. *)
Definition loadSelection (sel : option obj) : Eff unit :=
  emit (setInfo "") ;;
  emit (setError (JStr "")) ;;
  emit (setEditorTitle (optProp sel "title" ||| JStr "")) ;;
  emit (setEditorContent (optProp sel "content" ||| JStr "")) ;;
  emit (setIsDirty false).

(** The invariant of the collection: every note has an id other than
    [null] and [undefined]. *)
Definition idsPresent (l : list obj) : Prop :=
  Forall (fun n => isNullish (prop n "id") = false) l.

(** A handler run to its end from the state it was rendered with. *)
Definition handle (h : Eff unit) (env : Env) (s : State) : Completion unit * list Event * State :=
  run h env [] s.

Definition finalState {A : Type} (r : Completion A * list Event * State) : State := snd r.
Definition trace {A : Type} (r : Completion A * list Event * State) : list Event := snd (fst r).
Definition completion {A : Type} (r : Completion A * list Event * State) : Completion A := fst (fst r).


(** The requests of the four operations. *)
Definition GET (base : string) : Request := mkRequest base "GET" None.

Definition POST (base : string) (note : jsval) : Request := mkRequest base "POST" (Some note).

Definition PUT (base encoded : string) (note : jsval) : Request :=
  mkRequest (joinPath base encoded) "PUT" (Some note).

Definition DELETE (base encoded : string) : Request :=
  mkRequest (joinPath base encoded) "DELETE" None.

(** The two requests of an operation of the client, and how it completes. *)
Definition attemptTwice (r1 r2 : Request) (env : Env) (tr : list Event)
  : Completion jsval * list Event :=
  match respond env tr r1 with
  | Resolved d => (Normal d, (tr ++ [Requested r1 (Resolved d)])%list)
  | Rejected e1 =>
      let tr1 := (tr ++ [Requested r1 (Rejected e1)])%list in
      match respond env tr1 r2 with
      | Resolved d => (Normal d, (tr1 ++ [Requested r2 (Resolved d)])%list)
      | Rejected e2 => (Abrupt e2, (tr1 ++ [Requested r2 (Rejected e2)])%list)
      end
  end.

(** How [updateNote] and [deleteNote] run: nothing is requested when the
    id cannot be encoded. *)
Definition attemptEncoded (mk : string -> string -> Request) (id : jsval)
    (env : Env) (tr : list Event) : Completion jsval * list Event :=
  match encodeURIComponent id with
  | Normal encoded => attemptTwice (mk "/notes" encoded) (mk "/api/notes" encoded) env tr
  | Abrupt e => (Abrupt e, tr)
  end.


(** ** Below [request]: configuration, URL and response (apiClient.js) *)

(** [process.env], as far as the client reads it: each variable is a
    string or [undefined]. *)
Record ProcessEnv := mkProcessEnv {
  REACT_APP_API_BASE : option string;
  REACT_APP_BACKEND_URL : option string
}.

Definition envValue (v : option string) : jsval :=
  match v with
  | Some s => JStr s
  | None => JUndef
  end.

(** [s.replace(/\/+$/, "")]: the slashes that end the string are removed. *)
Fixpoint stripTrailingSlashes (s : string) : string :=
  match s with
  | EmptyString => EmptyString
  | String c rest =>
      let rest' := stripTrailingSlashes rest in
      if Ascii.eqb c "/" && String.eqb rest' "" then EmptyString else String c rest'
  end.

Definition getApiBaseUrl (penv : ProcessEnv) : string :=
  let raw := envValue (REACT_APP_API_BASE penv) ||| envValue (REACT_APP_BACKEND_URL penv)
             ||| JStr "" in
  stripTrailingSlashes (ToString (raw ||| JStr "")).

(** [path.startsWith("/") ? path : `/${path}`] *)
Definition normalizedPath (p : string) : string :=
  if String.prefix "/" p then p else String "/" p.

Definition buildUrl (penv : ProcessEnv) (p : string) : string :=
  let base := getApiBaseUrl penv in
  if truthy (JStr base) then String.append base (normalizedPath p) else normalizedPath p.

(** [hay.includes(needle)] *)
Fixpoint includes (needle hay : string) : bool :=
  String.prefix needle hay ||
  match hay with
  | EmptyString => false
  | String _ rest => includes needle rest
  end.

(** A response of [fetch]: its status, its [content-type] header ([null]
    when there is none) and the text of its body. *)
Record Response := mkResponse {
  status : Z;
  contentType : option string;
  bodyText : string
}.

(** [response.ok] *)
Definition ok (r : Response) : bool := Z.leb 200 (status r) && Z.leb (status r) 299.

(** [(response.headers.get("content-type") || "").includes("application/json")] *)
Definition isJson (r : Response) : bool :=
  includes "application/json" (ToString (envValue (contentType r) ||| JStr "")).

Section Transport.
(** [JSON.parse] on a body text: the value, or the SyntaxError thrown. *)
Variable JSON_parse : string -> Completion jsval.
(** [JSON.stringify] on a parsed value. *)
Variable JSON_stringify : jsval -> string.

(** The detail of a failure: the body, re-serialized when it is JSON, and
    the empty string when reading it throws. *)
Definition failureDetail (r : Response) : string :=
  if isJson r then
    match JSON_parse (bodyText r) with
    | Normal v => JSON_stringify v
    | Abrupt _ => ""
    end
  else bodyText r.

(** The [Error] thrown for a status outside 2xx, with its [status]. *)
Definition httpError (r : Response) : jsval :=
  let detail := failureDetail r in
  let code := ToString (JNum (status r)) in
  let message :=
    if truthy (JStr detail) then
      String.append "Request failed (" (String.append code (String.append "): " detail))
    else String.append "Request failed (" (String.append code ")") in
  JObj (<["message" := JStr message]> (<["status" := JNum (status r)]> ∅)).

Definition parseJsonOrThrow (r : Response) : Completion jsval :=
  if negb (ok r) then Abrupt (httpError r)
  else if Z.eqb (status r) 204 then Normal JNull
  else if isJson r then JSON_parse (bodyText r)
  else if truthy (JStr (bodyText r)) then Normal (JObj (<["raw" := JStr (bodyText r)]> ∅))
  else Normal JNull.

(** How [fetch] settles: with a response, or by throwing (network failure,
    or the abort of the timeout). *)
Inductive FetchResult :=
| Responded (r : Response)
| NetworkError (err : jsval).

(** How [request] settles for a settled [fetch]. *)
Definition settle (fr : FetchResult) : Outcome :=
  match fr with
  | NetworkError err => Rejected err
  | Responded r =>
      match parseJsonOrThrow r with
      | Normal data => Resolved data
      | Abrupt err => Rejected err
      end
  end.

(** Whether [request] throws for a settled [fetch], by its cause: [fetch]
    threw; the status is outside 2xx; or a 2xx response other than a 204
    announces JSON with a body that [response.json()] cannot parse. *)
Definition requestFails (fr : FetchResult) : bool :=
  match fr with
  | NetworkError _ => true
  | Responded r =>
      negb (ok r) ||
      (negb (Z.eqb (status r) 204) && isJson r &&
       match JSON_parse (bodyText r) with
       | Abrupt _ => true
       | Normal _ => false
       end)
  end.

(** The failures the specification names for [listNotes]: a transport
    failure, or an HTTP failure (a status outside 2xx). *)
Definition transportOrHttpFailure (fr : FetchResult) : bool :=
  match fr with
  | NetworkError _ => true
  | Responded r => negb (ok r)
  end.

(** The environment a server behind [fetch] makes; the server sees the URL
    [buildUrl] gives the path of the request. *)
Definition overFetch (penv : ProcessEnv)
    (fetch : list Event -> string -> Request -> FetchResult)
    (user : list Event -> string -> bool) : Env :=
  mkEnv (fun tr r => settle (fetch tr (buildUrl penv (path r)) r)) user.
End Transport.

(** ** The rest of the controller (App.js) *)

Section Display.
Variable Date_parse : string -> option Z.
(** [Date.prototype.toLocaleString] of a valid time value. *)
Variable toLocaleString : Z -> string.

Definition formatTimestamp (ts : jsval) : string :=
  if negb (truthy ts) then ""
  else match getTime Date_parse ts with
       | None => ""
       | Some t => toLocaleString t
       end.

(** The time a list item shows: [formatTimestamp(n.updatedAt || n.createdAt)]. *)
Definition noteListTime (n : obj) : string :=
  formatTimestamp (prop n "updatedAt" ||| prop n "createdAt").
End Display.

(** The state [App] starts with. *)
Definition initialState : State :=
  mkState [] JNull (JStr "") (JStr "") false true false false (JStr "") "".

(** The effect run on mount (the component still mounted when the load
    settles). *)
Definition onMount (s : State) : Eff unit :=
  emit (setIsLoading true) ;;
  refreshNotes s true ;;
  emit (setIsLoading false).

(** The Discard button, rendered for the selected note [n]. *)
Definition onDiscard (n : obj) : Eff unit :=
  Confirm "Discard unsaved changes?"
    (fun ok => if negb ok then Ret tt
               else emit (setEditorTitle (prop n "title" ||| JStr "")) ;;
                    emit (setEditorContent (prop n "content" ||| JStr "")) ;;
                    emit (setIsDirty false) ;;
                    emit (setInfo "Changes discarded.")).

(** The note [onNewNote] posts, and the trace when it does: the question
    it had to ask, answered yes, or nothing. *)
Definition NEW_NOTE : jsval := JObj (<["title" := JStr "Untitled"]> (<["content" := JStr ""]> ∅)).

Definition newNoteAsked (s : State) : list Event :=
  if isDirty s && negb (isNullish (selectedId s))
  then [Asked "You have unsaved changes. Discard them and create a new note?" true]
  else [].

(** [isLoading || isSaving || isDeleting] *)
Definition disableActions (s : State) : bool := isLoading s || isSaving s || isDeleting s.

(** The requests among the events of a trace. *)
Definition requestsOf (tr : list Event) : list Request :=
  omap (fun ev => match ev with
                  | Requested r _ => Some r
                  | Asked _ _ => None
                  end) tr.

(** ** A host and an environment to evaluate on *)

Module Sample.
(** A host that collates strings by code unit and whose dates are all
    given as epoch numbers. *)
Definition Date_parse (_ : string) : option Z := None.

Definition localeCompare (a b : string) : Z :=
  match String_as_OT.compare a b with
  | Lt => -1
  | Eq => 0
  | Gt => 1
  end.

Definition trim (s : string) : string := s.

Definition failure (status : string) (r : Request) : jsval :=
  JObj (<["message" := JStr (String.append "Request failed (" (String.append status
          (String.append ") " (path r))))]> ∅).

(** A server that fails every request, and a user who declines. *)
Definition failing : Env := mkEnv (fun _ r => Rejected (failure "500" r)) (fun _ _ => false).

(** A server that answers every request with the given body, and a user
    who confirms. *)
Definition answering (data : jsval) : Env := mkEnv (fun _ _ => Resolved data) (fun _ _ => true).

Definition noteA : obj :=
  normalizeNote (JObj (<["id" := JNum 1]> (<["title" := JStr "A"]>
                      (<["updatedAt" := JStr "2024-01-01"]> ∅)))).

Definition noteB : obj :=
  normalizeNote (JObj (<["_id" := JStr "b/2"]> (<["title" := JStr "B"]> ∅))).

(** Note [A] selected, its content edited. *)
Definition editing : State :=
  mkState [noteA; noteB] (JNum 1) (JStr "A") (JStr "edited") true false false false (JStr "") "".

(** Two notes with epoch timestamps; [early] was updated at epoch zero. *)
Definition early : obj := mkNote (JNum 1) (JStr "a") (JStr "") (JNum 1000) (JNum 0).
Definition late : obj := mkNote (JNum 2) (JStr "b") (JStr "") JNull (JNum 500).
End Sample.

(** Further cases to evaluate on. *)
Module Cases.
Definition SyntaxError : jsval := JObj (<["message" := JStr "Unexpected token"]> ∅).

(** A host that reads two JSON texts. *)
Definition JSON_parse (t : string) : Completion jsval :=
  if String.eqb t "null" then Normal JNull
  else if String.eqb t "[]" then Normal (JArr [])
  else Abrupt SyntaxError.

Definition JSON_stringify (v : jsval) : string :=
  match v with
  | JArr [] => "[]"
  | _ => "null"
  end.

Definition toLocaleString (t : Z) : string := ToString (JNum t).

(** The TypeError of [v.trim()] on a value that is not a string. *)
Definition trimTypeError (v : jsval) : jsval :=
  JObj (<["message" :=
          JStr (if isNullish v
                then String.append "Cannot read properties of "
                       (String.append (ToString v) " (reading 'trim')")
                else "editorTitle.trim is not a function")]> ∅).

Definition badJson : Response := mkResponse 200 (Some "application/json") "<html>".

(** No variable set: requests go to the same origin. *)
Definition sameOrigin : ProcessEnv := mkProcessEnv None None.

(** A server that answers every request with the same response, and a user
    who confirms. *)
Definition serving (r : Response) : Env :=
  overFetch JSON_parse JSON_stringify sameOrigin (fun _ _ _ => Responded r) (fun _ _ => true).

Definition htmlPage : Response := mkResponse 200 (Some "text/html") "<html></html>".
Definition notFound : Response := mkResponse 404 (Some "text/plain") "no such route".

(** A note whose id is the number zero, selected. *)
Definition noteZero : obj := mkNote (JNum 0) (JStr "Z") (JStr "") JNull JNull.
Definition zeroSelected : State :=
  mkState [noteZero] (JNum 0) (JStr "Z") (JStr "changed") true false false false (JStr "") "".

(** A user who confirms, before a server that fails every request. *)
Definition failingConfirmed : Env :=
  mkEnv (fun _ r => Rejected (Sample.failure "500" r)) (fun _ _ => true).

(** Note [A] selected, its title loaded from a record whose title was the
    number five. *)
Definition numberTitled : State :=
  mkState [Sample.noteA; Sample.noteB] (JNum 1) (JNum 5) (JStr "edited") true
          false false false (JStr "") "".

(** The store of [Sample.editing] after the user selected note [B]. *)
Definition movedOn : State :=
  mkState [Sample.noteA; Sample.noteB] (JStr "b/2") (JStr "B") (JStr "") false
          false false false (JStr "") "".

(** Three notes without timestamps, two of them with the same title. *)
Definition first_b : obj := mkNote (JNum 1) (JStr "b") (JStr "first") JNull JNull.
Definition only_a : obj := mkNote (JNum 2) (JStr "a") (JStr "") JNull JNull.
Definition second_b : obj := mkNote (JNum 3) (JStr "b") (JStr "second") JNull JNull.
End Cases.

(** * Properties *)

(** ** Running computations *)

Lemma run_bind {A B : Type} (m : Eff A) (f : A -> Eff B) env tr st :
  run (bind m f) env tr st =
  match run m env tr st with
  | (Normal a, tr', st') => run (f a) env tr' st'
  | (Abrupt e, tr', st') => (Abrupt e, tr', st')
  end.
Proof.
  revert tr st. induction m as [a|e|r k IH|msg k IH|u k IH]; intros tr st; simpl; auto.
Qed.

Lemma run_catch {A : Type} (m : Eff A) (h : jsval -> Eff A) env tr st :
  run (catch m h) env tr st =
  match run m env tr st with
  | (Normal a, tr', st') => (Normal a, tr', st')
  | (Abrupt e, tr', st') => run (h e) env tr' st'
  end.
Proof.
  revert tr st. induction m as [a|e|r k IH|msg k IH|u k IH]; intros tr st; simpl; auto.
Qed.

Lemma run_finally {A : Type} (m : Eff A) (fin : Eff unit) env tr st :
  run (finally m fin) env tr st =
  match run m env tr st with
  | (c, tr', st') =>
      match run fin env tr' st' with
      | (Normal _, tr'', st'') => (c, tr'', st'')
      | (Abrupt e, tr'', st'') => (Abrupt e, tr'', st'')
      end
  end.
Proof.
  unfold finally. rewrite run_bind, run_catch, run_bind.
  destruct (run m env tr st) as [[[a|e] tr'] st']; simpl;
    rewrite run_bind; destruct (run fin env tr' st') as [[[[]|e'] tr''] st'']; reflexivity.
Qed.

Lemma run_emit u env tr st : run (emit u) env tr st = (Normal tt, tr, applyUpdate u st).
Proof. reflexivity. Qed.

Lemma run_two_candidates (mk : string -> Request) env tr st :
  run (tryCandidates NOTES_BASE_CANDIDATES
         (fun base => request (path (mk base)) (method (mk base)) (body (mk base))) JUndef)
      env tr st =
  (attemptTwice (mk "/notes") (mk "/api/notes") env tr, st).
Proof.
  unfold attemptTwice. simpl.
  destruct (mk "/notes") as [p1 m1 b1] eqn:E1, (mk "/api/notes") as [p2 m2 b2] eqn:E2; simpl.
  destruct (respond env tr _) as [d|e1]; simpl; [reflexivity|].
  destruct (respond env _ _) as [d|e2]; reflexivity.
Qed.

(** ** Normalization *)

Lemma isNullish_nullish_or a b : isNullish (a ?? b) = isNullish a && isNullish b.
Proof. unfold nullish_or. destruct (isNullish a) eqn:E; simpl; auto. Qed.

Lemma nullish_or_undef a : a <> JNull -> a ?? JUndef = a.
Proof. destruct a; unfold nullish_or; simpl; congruence. Qed.

Lemma nullish_or_keep a b : isNullish a = false -> a ?? b = a.
Proof. unfold nullish_or. intros ->. reflexivity. Qed.

Lemma prop_mkNote_id id t c ca ua : prop (mkNote id t c ca ua) "id" = id.
Proof. reflexivity. Qed.

Lemma normalizeNote_mkNote id t c ca ua :
  normalizeNote (JObj (mkNote id t c ca ua)) =
  mkNote (id ?? JUndef ?? JUndef ?? JUndef) (t ?? JStr "") (c ?? JStr "")
         (ca ?? JUndef ?? JNull) (ua ?? JUndef ?? JNull).
Proof. reflexivity. Qed.

Lemma timestamp_default_stable a b : (a ?? b ?? JNull) ?? JUndef ?? JNull = a ?? b ?? JNull.
Proof. destruct a, b; reflexivity. Qed.

Lemma text_default_stable a : (a ?? JStr "") ?? JStr "" = a ?? JStr "".
Proof. destruct a; reflexivity. Qed.

Lemma canonical_fixed n : canonical n -> normalizeNote (JObj n) = n.
Proof.
  intros (id & t & c & ca & ua & -> & Hid & Ht & Hc & Hca & Hua).
  rewrite normalizeNote_mkNote.
  rewrite !(nullish_or_undef id) by assumption.
  rewrite (nullish_or_keep t), (nullish_or_keep c) by assumption.
  destruct ca, ua; try congruence; reflexivity.
Qed.

(** C9, as stated, fails: a record whose only identifier alias is
    [uuid: null] normalizes to a note with id [null], and normalizing that
    note again gives id [undefined]. *)
Lemma normalizeNote_not_idempotent_null_uuid :
  let r := JObj (<["uuid" := JNull]> ∅) in
  prop (normalizeNote r) "id" = JNull /\
  prop (normalizeNote (JObj (normalizeNote r))) "id" = JUndef /\
  normalizeNote (JObj (normalizeNote r)) <> normalizeNote r.
Proof.
  split; [reflexivity|]. split; [reflexivity|].
  intros H. apply (f_equal (fun o => prop o "id")) in H. discriminate H.
Qed.

(** C9 (amended): for every raw record whose normalized id is not [null],
    normalizing the normalized note returns it unchanged. *)
Theorem normalizeNote_idempotent (raw : jsval) :
  prop (normalizeNote raw) "id" <> JNull ->
  normalizeNote (JObj (normalizeNote raw)) = normalizeNote raw.
Proof.
  intros Hid.
  assert (Hid' : getProp raw "id" ?? getProp raw "_id" ?? getProp raw "noteId"
                 ?? getProp raw "uuid" <> JNull) by exact Hid.
  unfold normalizeNote at 2 3. cbv zeta.
  set (id := getProp raw "id" ?? getProp raw "_id" ?? getProp raw "noteId"
             ?? getProp raw "uuid") in *.
  rewrite normalizeNote_mkNote, !(nullish_or_undef id) by assumption.
  rewrite !text_default_stable, !timestamp_default_stable. reflexivity.
Qed.

Lemma normalizeNote_idempotent_witness :
  normalizeNote (JObj (normalizeNote (JObj (<["_id" := JNum 7]> (<["title" := JStr "A"]> ∅))))) =
  normalizeNote (JObj (<["_id" := JNum 7]> (<["title" := JStr "A"]> ∅))).
Proof. apply normalizeNote_idempotent. simpl. discriminate. Defined.

Lemma prop_mkNote_fields id t c ca ua :
  prop (mkNote id t c ca ua) "title" = t /\
  prop (mkNote id t c ca ua) "content" = c /\
  prop (mkNote id t c ca ua) "createdAt" = ca /\
  prop (mkNote id t c ca ua) "updatedAt" = ua.
Proof. repeat split; reflexivity. Qed.

(** In every case a second normalization keeps the texts and the
    timestamps, and keeps whether there is an id. *)
Lemma normalizeNote_twice_fields (raw : jsval) :
  let n1 := normalizeNote raw in
  let n2 := normalizeNote (JObj n1) in
  prop n2 "title" = prop n1 "title" /\
  prop n2 "content" = prop n1 "content" /\
  prop n2 "createdAt" = prop n1 "createdAt" /\
  prop n2 "updatedAt" = prop n1 "updatedAt" /\
  isNullish (prop n2 "id") = isNullish (prop n1 "id").
Proof.
  intros n1 n2. subst n1 n2.
  set (id := getProp raw "id" ?? getProp raw "_id" ?? getProp raw "noteId" ?? getProp raw "uuid").
  set (t := getProp raw "title"). set (c := getProp raw "content").
  set (ca := getProp raw "createdAt"). set (cb := getProp raw "created_at").
  set (ua := getProp raw "updatedAt"). set (ub := getProp raw "updated_at").
  assert (E : normalizeNote raw =
              mkNote id (t ?? JStr "") (c ?? JStr "") (ca ?? cb ?? JNull) (ua ?? ub ?? JNull))
    by reflexivity.
  rewrite E, normalizeNote_mkNote.
  rewrite !text_default_stable, !timestamp_default_stable.
  destruct (prop_mkNote_fields id (t ?? JStr "") (c ?? JStr "") (ca ?? cb ?? JNull)
              (ua ?? ub ?? JNull)) as (Ht & Hc & Hca & Hua).
  destruct (prop_mkNote_fields (id ?? JUndef ?? JUndef ?? JUndef) (t ?? JStr "") (c ?? JStr "")
              (ca ?? cb ?? JNull) (ua ?? ub ?? JNull)) as (Ht' & Hc' & Hca' & Hua').
  rewrite Ht, Hc, Hca, Hua, Ht', Hc', Hca', Hua', !prop_mkNote_id.
  rewrite !isNullish_nullish_or. simpl. rewrite !andb_true_r. auto.
Qed.

Lemma hasId_normalizeNote raw : hasId (normalizeNote raw) = carriesId raw.
Proof.
  unfold hasId, normalizeNote, carriesId. cbv zeta.
  rewrite prop_mkNote_id, !isNullish_nullish_or. simpl.
  destruct (isNullish (getProp raw "id")), (isNullish (getProp raw "_id")),
    (isNullish (getProp raw "noteId")), (isNullish (getProp raw "uuid")); reflexivity.
Qed.

Lemma normalizeAll_filter data :
  normalizeAll data = map normalizeNote (List.filter carriesId data).
Proof.
  unfold normalizeAll. induction data as [|raw data IH]; simpl; [reflexivity|].
  rewrite hasId_normalizeNote. destruct (carriesId raw); simpl; congruence.
Qed.

Lemma normalizeAll_hasId data : Forall (fun n => hasId n = true) (normalizeAll data).
Proof.
  unfold normalizeAll. apply Forall_forall. intros n Hn.
  apply list_elem_of_In, List.filter_In in Hn. apply Hn.
Qed.

(** ** The API client *)

Lemma run_listNotes env tr st :
  run listNotes env tr st =
  (match attemptTwice (GET "/notes") (GET "/api/notes") env tr with
   | (Normal d, tr') => (Normal (listShape d), tr')
   | (Abrupt e, tr') => (Abrupt e, tr')
   end, st).
Proof.
  unfold attemptTwice, GET. simpl.
  destruct (respond env tr _) as [d|e1]; simpl; [reflexivity|].
  destruct (respond env _ _) as [d|e2]; reflexivity.
Qed.

Lemma refreshNotes_notes s keep env tr st :
  notes (finalState (run (refreshNotes s keep) env tr st)) =
  match completion (run listNotes env tr st) with
  | Normal data => normalizeAll data
  | Abrupt _ => notes st
  end.
Proof.
  unfold refreshNotes. rewrite run_bind, run_emit, run_catch, run_bind.
  rewrite !run_listNotes.
  destruct (attemptTwice _ _ env tr) as [[d|e] tr']; simpl; [|reflexivity].
  destruct keep; simpl.
  - destruct (isNullish (selectedId s) && _); simpl; [reflexivity|].
    destruct (isNullish (selectedId s)); simpl; [reflexivity|].
    destruct (existsb _ _); reflexivity.
  - reflexivity.
Qed.

Lemma refreshNotes_error s keep env tr st :
  completion (run (refreshNotes s keep) env tr st) = Normal tt /\
  error (finalState (run (refreshNotes s keep) env tr st)) =
  match completion (run listNotes env tr st) with
  | Normal _ => JStr ""
  | Abrupt e => messageOf e "Failed to load notes."
  end.
Proof.
  unfold refreshNotes. rewrite run_bind, run_emit, run_catch, run_bind.
  rewrite !run_listNotes.
  destruct (attemptTwice _ _ env tr) as [[d|e] tr']; simpl; [|split; reflexivity].
  destruct keep; simpl.
  - destruct (isNullish (selectedId s) && _); simpl; [split; reflexivity|].
    destruct (isNullish (selectedId s)); simpl; [split; reflexivity|].
    destruct (existsb _ _); split; reflexivity.
  - split; reflexivity.
Qed.

(** C2: normalization keeps a raw record exactly when it carries a value
    other than [null]/[undefined] under one of the identifier aliases; the
    others are dropped, without an error, so Load/Refresh replaces the
    collection by notes that all have an id. *)
Theorem normalization_keeps_identified_records
    (raw : jsval) (data : list jsval) (s : State) (keepSelection : bool) (env : Env) :
  hasId (normalizeNote raw) = carriesId raw /\
  normalizeAll data = map normalizeNote (List.filter carriesId data) /\
  Forall (fun n => isNullish (prop n "id") = false) (normalizeAll data) /\
  notes (finalState (handle (refreshNotes s keepSelection) env s)) =
    match completion (run listNotes env [] s) with
    | Normal fetched => normalizeAll fetched
    | Abrupt _ => notes s
    end /\
  completion (handle (refreshNotes s keepSelection) env s) = Normal tt /\
  error (finalState (handle (refreshNotes s keepSelection) env s)) =
    match completion (run listNotes env [] s) with
    | Normal _ => JStr ""
    | Abrupt e => messageOf e "Failed to load notes."
    end.
Proof.
  split; [apply hasId_normalizeNote|].
  split; [apply normalizeAll_filter|].
  split; [|split; [apply refreshNotes_notes|apply refreshNotes_error]].
  eapply Forall_impl; [apply normalizeAll_hasId|].
  intros n Hn. unfold hasId in Hn. simpl in Hn. destruct (isNullish _); [discriminate|reflexivity].
Qed.

Example refresh_drops_unidentified :
  notes (finalState (handle (refreshNotes Sample.editing true)
           (Sample.answering (JArr [JObj (<["title" := JStr "no id"]> ∅);
                                    JObj (<["uuid" := JStr "u1"]> ∅);
                                    JObj (<["id" := JNull]> ∅)]))
           Sample.editing))
  = [normalizeNote (JObj (<["uuid" := JStr "u1"]> ∅))].
Proof. vm_compute. reflexivity. Qed.

Lemma listShape_cases data :
  listShape data =
  match data with
  | JArr l => l
  | JObj o => match o !! "notes" with
              | Some (JArr l) => l
              | _ => []
              end
  | _ => []
  end.
Proof.
  destruct data as [| |b|n|t|l|o]; try reflexivity.
  - destruct b; reflexivity.
  - unfold listShape; simpl. destruct (Z.eqb n 0); reflexivity.
  - unfold listShape; simpl. destruct (String.eqb t ""); reflexivity.
  - unfold listShape, getProp, prop; simpl.
    destruct (o !! "notes") as [[]|]; reflexivity.
Qed.

(** How [listNotes] completes, by the outcomes of its two requests. *)
Lemma listNotes_completion (env : Env) (tr : list Event) (st : State) :
  completion (run listNotes env tr st) =
    match respond env tr (GET "/notes") with
    | Resolved data => Normal (listShape data)
    | Rejected e1 =>
        match respond env (tr ++ [Requested (GET "/notes") (Rejected e1)]) (GET "/api/notes") with
        | Resolved data => Normal (listShape data)
        | Rejected e2 => Abrupt e2
        end
    end.
Proof.
  rewrite run_listNotes. unfold attemptTwice, completion. simpl.
  destruct (respond env tr _) as [d|e1]; simpl; [reflexivity|].
  destruct (respond env _ _) as [d|e2]; reflexivity.
Qed.

(** C6, as the specification words it, does not hold.  A server that
    answers both paths with status 200, content type [application/json] and
    a body that is not JSON is no transport failure and no HTTP failure, and
    [listNotes] throws the SyntaxError of [response.json()] after asking
    both paths. *)
Lemma listNotes_throws_on_unparsable_success_body :
  ok Cases.badJson = true /\
  transportOrHttpFailure (Responded Cases.badJson) = false /\
  run listNotes (Cases.serving Cases.badJson) [] initialState =
    (Abrupt Cases.SyntaxError,
     [Requested (GET "/notes") (Rejected Cases.SyntaxError);
      Requested (GET "/api/notes") (Rejected Cases.SyntaxError)],
     initialState).
Proof. split; [reflexivity|]. split; reflexivity. Qed.

Section ListNotesProperties.
Variable JSON_parse : string -> Completion jsval.
Variable JSON_stringify : jsval -> string.

Lemma requestFails_settle (fr : FetchResult) :
  requestFails JSON_parse fr = true <->
  exists e, settle JSON_parse JSON_stringify fr = Rejected e.
Proof.
  destruct fr as [r|err]; [|split; [eexists; reflexivity|reflexivity]].
  unfold requestFails, settle, parseJsonOrThrow.
  destruct (ok r); cbn; [|split; [eexists; reflexivity|reflexivity]].
  destruct (Z.eqb (status r) 204); cbn; [split; [discriminate|intros [e H]; discriminate H]|].
  destruct (isJson r); cbn.
  - destruct (JSON_parse (bodyText r)); split;
      try discriminate; try reflexivity; try (eexists; reflexivity);
      intros [e H]; discriminate H.
  - destruct (negb (String.eqb (bodyText r) ""));
      (split; [discriminate|intros [e H]; discriminate H]).
Qed.

(** C6: [listNotes] returns a bare array as it is, the [notes] array of an
    object that has one, and the empty list for any other body that
    [request] resolves with; it throws exactly when the request fails for
    both candidate paths, with the error of the second.  A request fails on
    a transport failure, on a status outside 2xx, and also on a 2xx response
    other than a 204 that announces JSON with a body that does not parse. *)
Theorem listNotes_throws_when_both_requests_fail
    (penv : ProcessEnv) (fetch : list Event -> string -> Request -> FetchResult)
    (user : list Event -> string -> bool) (tr : list Event) (st : State) :
  let env := overFetch JSON_parse JSON_stringify penv fetch user in
  let f1 := fetch tr (buildUrl penv "/notes") (GET "/notes") in
  let o1 := settle JSON_parse JSON_stringify f1 in
  let f2 := fetch (tr ++ [Requested (GET "/notes") o1])%list
                  (buildUrl penv "/api/notes") (GET "/api/notes") in
  let o2 := settle JSON_parse JSON_stringify f2 in
  (forall data, listShape data =
     match data with
     | JArr l => l
     | JObj o => match o !! "notes" with
                 | Some (JArr l) => l
                 | _ => []
                 end
     | _ => []
     end) /\
  listShape (JObj ∅) = [] /\
  completion (run listNotes env tr st) =
    match o1 with
    | Resolved data => Normal (listShape data)
    | Rejected _ =>
        match o2 with
        | Resolved data => Normal (listShape data)
        | Rejected e2 => Abrupt e2
        end
    end /\
  ((exists e, completion (run listNotes env tr st) = Abrupt e) <->
   requestFails JSON_parse f1 = true /\ requestFails JSON_parse f2 = true) /\
  (forall fr, transportOrHttpFailure fr = true -> requestFails JSON_parse fr = true) /\
  (forall r, requestFails JSON_parse (Responded r) = true <->
     ok r = false \/
     (status r <> 204 /\ isJson r = true /\ exists e, JSON_parse (bodyText r) = Abrupt e)).
Proof.
  intros env f1 o1 f2 o2.
  assert (Hc : completion (run listNotes env tr st) =
               match o1 with
               | Resolved data => Normal (listShape data)
               | Rejected _ =>
                   match o2 with
                   | Resolved data => Normal (listShape data)
                   | Rejected e2 => Abrupt e2
                   end
               end).
  { rewrite listNotes_completion. unfold env, overFetch. cbn [respond path GET].
    fold f1. fold o1. destruct o1 as [d|e1] eqn:E1; [reflexivity|].
    fold f2. fold o2. reflexivity. }
  split; [apply listShape_cases|]. split; [reflexivity|]. split; [exact Hc|].
  split; [|split].
  - rewrite Hc, !requestFails_settle. fold o1. fold o2.
    destruct o1 as [d1|e1].
    + split; [intros [e H]; discriminate H|intros [[e H] _]; discriminate H].
    + destruct o2 as [d2|e2].
      * split; [intros [e H]; discriminate H|intros [_ [e H]]; discriminate H].
      * split; [intros _; split; eexists; reflexivity|intros _; eexists; reflexivity].
  - intros [r|err]; cbn; [|reflexivity]. intros ->. reflexivity.
  - intros r. cbn [requestFails]. destruct (ok r); cbn.
    + destruct (Z.eqb_spec (status r) 204) as [E|E]; cbn.
      * split; [discriminate|]. intros [H|[H _]]; [discriminate H|contradiction].
      * destruct (isJson r); cbn.
        -- destruct (JSON_parse (bodyText r)) as [v|e].
           ++ split; [discriminate|]. intros [H|(_ & _ & e & H)]; discriminate H.
           ++ split; [|reflexivity]. intros _. right. repeat split; eauto.
        -- split; [discriminate|]. intros [H|(_ & H & _)]; discriminate H.
    + split; [|reflexivity]. intros _. left. reflexivity.
Qed.
End ListNotesProperties.

Lemma listNotes_throws_when_both_requests_fail_witness :
  exists e, completion (run listNotes (Cases.serving Cases.badJson) [] initialState) = Abrupt e.
Proof.
  pose proof (listNotes_throws_when_both_requests_fail Cases.JSON_parse Cases.JSON_stringify
                Cases.sameOrigin (fun _ _ _ => Responded Cases.badJson) (fun _ _ => true)
                [] initialState) as H.
  cbv zeta in H. destruct H as (_ & _ & _ & [_ H] & _).
  apply H. split; reflexivity.
Defined.

Example listNotes_wrapped a b :
  listShape (JObj (<["notes" := JArr [a; b]]> ∅)) = [a; b].
Proof. reflexivity. Qed.

Example listNotes_bare a b : listShape (JArr [a; b]) = [a; b].
Proof. reflexivity. Qed.

Lemma run_createNote note env tr st :
  run (createNote note) env tr st =
  (attemptTwice (POST "/notes" note) (POST "/api/notes" note) env tr, st).
Proof. apply (run_two_candidates (fun base => POST base note)). Qed.

(** C7: when the request of [createNote] to the primary path fails, the
    alternate path is requested, once, before anything is reported; when
    that fails too, the error thrown is the alternate's. *)
Theorem createNote_tries_alternate_once
    (note : jsval) (env : Env) (tr : list Event) (st : State) (e1 : jsval) :
  respond env tr (POST "/notes" note) = Rejected e1 ->
  let tr1 := (tr ++ [Requested (POST "/notes" note) (Rejected e1)])%list in
  let o2 := respond env tr1 (POST "/api/notes" note) in
  trace (run (createNote note) env tr st) = (tr1 ++ [Requested (POST "/api/notes" note) o2])%list /\
  completion (run (createNote note) env tr st) =
    match o2 with
    | Resolved created => Normal created
    | Rejected e2 => Abrupt e2
    end.
Proof.
  intros H1 tr1 o2. rewrite run_createNote. unfold attemptTwice, trace, completion. simpl.
  rewrite H1. fold tr1. fold o2. destruct o2; split; reflexivity.
Qed.

Lemma run_updateNote id note env tr st :
  run (updateNote id note) env tr st =
  (attemptEncoded (fun base encoded => PUT base encoded note) id env tr, st).
Proof.
  unfold attemptEncoded, updateNote, notePath.
  destruct (encodeURIComponent id) as [encoded|e]; [|reflexivity].
  apply (run_two_candidates (fun base => PUT base encoded note)).
Qed.

Lemma run_deleteNote id env tr st :
  run (deleteNote id) env tr st =
  (attemptEncoded DELETE id env tr, st).
Proof.
  unfold attemptEncoded, deleteNote, notePath.
  destruct (encodeURIComponent id) as [encoded|e]; [|reflexivity].
  apply (run_two_candidates (fun base => DELETE base encoded)).
Qed.













Example encodeURIComponent_reserved :
  encodeURIComponent (JStr "a/b c?d#e") = Normal "a%2Fb%20c%3Fd%23e".
Proof. reflexivity. Qed.

Example encodeURIComponent_lone_surrogate :
  encodeURIComponent
    (JStr (String (ascii_of_N 237) (String (ascii_of_N 160) (String (ascii_of_N 128) EmptyString))))
  = Abrupt URIError.
Proof. reflexivity. Qed.

Example updateNote_paths :
  trace (run (updateNote (JStr "b/2") JNull) Sample.failing [] Sample.editing) =
  [Requested (mkRequest "/notes/b%2F2" "PUT" (Some JNull))
             (Rejected (Sample.failure "500" (mkRequest "/notes/b%2F2" "PUT" (Some JNull))));
   Requested (mkRequest "/api/notes/b%2F2" "PUT" (Some JNull))
             (Rejected (Sample.failure "500" (mkRequest "/api/notes/b%2F2" "PUT" (Some JNull))))].
Proof. reflexivity. Qed.

(** ** The state controller *)

Arguments updateNote : simpl never.
Arguments deleteNote : simpl never.
Arguments createNote : simpl never.
Arguments listNotes : simpl never.
Arguments refreshNotes : simpl never.
Arguments newNoteBody : simpl never.
Arguments attemptEncoded : simpl never.
Arguments sameString : simpl never.
Arguments withoutId : simpl never.
Arguments firstId : simpl never.

Ltac run_step :=
  rewrite ?run_bind, ?run_finally, ?run_catch, ?run_emit,
          ?run_updateNote, ?run_deleteNote, ?run_createNote; cbn.

(** C8: with a dirty draft and a note selected, selecting an id whose
    string differs from the selected one, the user declining, changes
    nothing: the selection, the draft and the dirty flag are as before, and
    the handler returns normally. *)
Theorem onSelectNote_declined_is_noop (s : State) (id : jsval) (env : Env) :
  isDirty s = true ->
  isNullish (selectedId s) = false ->
  sameString id (selectedId s) = false ->
  (forall tr msg, confirms env tr msg = false) ->
  let r := handle (onSelectNote s id) env s in
  completion r = Normal tt /\
  finalState r = s /\
  selectedId (finalState r) = selectedId s /\
  editorTitle (finalState r) = editorTitle s /\
  editorContent (finalState r) = editorContent s /\
  isDirty (finalState r) = true.
Proof.
  intros Hd Hsel Hne Hno r. subst r. unfold handle, onSelectNote.
  rewrite Hd, Hsel, Hne. simpl. rewrite Hno. simpl.
  unfold completion, finalState. simpl. repeat split; auto.
Qed.

Section SaveProperties.
Variable trim : string -> string.
Variable trimTypeError : jsval -> jsval.

(** C3: when the update call of Save throws, the draft is still dirty
    and the collection is what it was; the error is surfaced. *)
Theorem onSave_failure_keeps_draft (s : State) (env : Env) (t : string) (e : jsval) :
  truthy (optProp (selectedNote s) "id") = true ->
  editorTitle s = JStr t ->
  isDirty s = true ->
  completion (run (updateNote (optProp (selectedNote s) "id")
                     (savePayload (JStr (trim t)) (editorContent s))) env [] s) = Abrupt e ->
  let s' := finalState (handle (onSave trim trimTypeError s) env s) in
  isDirty s' = true /\ notes s' = notes s /\
  error s' = messageOf e "Failed to save note.".
Proof.
  intros Hid Ht Hd Hfail s'. subst s'. unfold handle, onSave.
  rewrite Hid, Ht. cbn. rewrite run_updateNote in Hfail.
  repeat (progress run_step).
  destruct (attemptEncoded _ _ env []) as [[d|e'] tr']; cbn in *; [discriminate|].
  injection Hfail as ->. unfold finalState. cbn. repeat split; auto.
Qed.

Lemma spread_lookup (n m : obj) (k : string) :
  spread n m !! k = match m !! k with
                    | Some v => Some v
                    | None => n !! k
                    end.
Proof. unfold spread. rewrite lookup_union. destruct (m !! k), (n !! k); reflexivity. Qed.

Lemma mergeSaved_lookup normalized prev (i : nat) (n : obj) :
  prev !! i = Some n ->
  mergeSaved normalized prev !! i =
    Some (if sameString (prop n "id") (prop normalized "id") then spread n normalized else n).
Proof. intros H. unfold mergeSaved. rewrite list_lookup_fmap, H. reflexivity. Qed.

(** C4: after a Save whose response normalizes to a note with an id,
    every entry of the collection whose id has the same string as the
    response's is the spread of the entry overwritten by the normalized
    response, the other entries are untouched, and the draft is clean. *)
Theorem onSave_success_merges_response
    (s : State) (env : Env) (t : string) (updated : jsval) :
  truthy (optProp (selectedNote s) "id") = true ->
  editorTitle s = JStr t ->
  completion (run (updateNote (optProp (selectedNote s) "id")
                     (savePayload (JStr (trim t)) (editorContent s))) env [] s) = Normal updated ->
  isNullish (prop (normalizeNote (updated ||| JObj ∅)) "id") = false ->
  let normalized := normalizeNote (updated ||| JObj ∅) in
  let s' := finalState (handle (onSave trim trimTypeError s) env s) in
  isDirty s' = false /\
  length (notes s') = length (notes s) /\
  (forall (i : nat) (n : obj),
      notes s !! i = Some n ->
      notes s' !! i =
        Some (if sameString (prop n "id") (prop normalized "id")
              then spread n normalized else n)) /\
  (forall (n : obj) (k : string),
      spread n normalized !! k = match normalized !! k with
                                 | Some v => Some v
                                 | None => n !! k
                                 end).
Proof.
  intros Hid Ht Hok Hnid normalized s'. subst s'. unfold handle, onSave.
  rewrite Hid, Ht. cbn. rewrite run_updateNote in Hok.
  repeat (progress run_step).
  destruct (attemptEncoded _ _ env []) as [[d|e'] tr']; cbn in *; [|discriminate].
  injection Hok as ->. rewrite Hnid. repeat (progress run_step).
  unfold finalState. cbn. fold normalized.
  split; [reflexivity|]. split; [unfold mergeSaved; apply length_map|].
  split; [intros i n Hn; apply mergeSaved_lookup, Hn|].
  intros n k. apply spread_lookup.
Qed.
End SaveProperties.

(** The effect on the selected note leaves a clean draft, and touches
    neither the collection nor the selection. *)
Lemma loadSelection_clean sel env tr st :
  let st' := finalState (run (loadSelection sel) env tr st) in
  isDirty st' = false /\ notes st' = notes st /\ selectedId st' = selectedId st.
Proof. cbn. auto. Qed.

(** Editing always marks the draft dirty, whatever the value typed. *)
Lemma onEditor_change_dirty v env tr st :
  isDirty (finalState (run (onEditorTitleChange v) env tr st)) = true /\
  isDirty (finalState (run (onEditorContentChange v) env tr st)) = true.
Proof. cbn. auto. Qed.

Lemma sameString_refl a : sameString a a = true.
Proof. apply String.eqb_refl. Qed.

Lemma sameString_sym a b : sameString a b = sameString b a.
Proof. apply String.eqb_sym. Qed.

Lemma selectedNote_some s n :
  selectedNote s = Some n -> In n (notes s) /\ sameString (prop n "id") (selectedId s) = true.
Proof. unfold selectedNote. intros H. apply List.find_some in H. exact H. Qed.

Lemma withoutId_In id l m :
  In m (withoutId id l) <-> In m l /\ sameString (prop m "id") id = false.
Proof.
  unfold withoutId. rewrite List.filter_In.
  destruct (sameString (prop m "id") id); simpl; intuition congruence.
Qed.

(** C5: after a confirmed, successful Delete of the selected note, the
    collection is the earlier one without the notes of that id, in the same
    order; the selection is the first of them, or none when there is none;
    and the draft is clean. *)
Theorem onDelete_selects_first_remaining (s : State) (env : Env) (n : obj) (v : jsval) :
  selectedNote s = Some n ->
  truthy (prop n "id") = true ->
  Forall (fun m => isNullish (prop m "id") = false) (notes s) ->
  (forall tr msg, confirms env tr msg = true) ->
  completion (run (deleteNote (prop n "id")) env
                [Asked "Delete this note? This cannot be undone." true] s) = Normal v ->
  let s' := finalState (handle (onDelete s) env s) in
  let remaining := withoutId (prop n "id") (notes s) in
  notes s' = remaining /\
  ~ In n (notes s') /\
  selectedId s' = match remaining with
                  | [] => JNull
                  | m :: _ => prop m "id"
                  end /\
  selectedNote s' = head remaining /\
  isDirty s' = false.
Proof.
  intros Hsel Hid Hinv Hyes Hok s' remaining.
  destruct (selectedNote_some _ _ Hsel) as [Hin Hsame].
  assert (Hfirst : firstId remaining = match remaining with
                                       | [] => JNull
                                       | m :: _ => prop m "id"
                                       end).
  { destruct remaining as [|m rest] eqn:E; [reflexivity|].
    unfold firstId; simpl. apply nullish_or_keep.
    assert (Hm : In m remaining) by (rewrite E; left; reflexivity).
    apply withoutId_In in Hm. destruct Hm as [Hm _].
    rewrite Forall_forall in Hinv. apply Hinv, list_elem_of_In, Hm. }
  assert (Hrun : s' = mkState remaining (firstId remaining) (editorTitle s) (editorContent s)
                        false (isLoading s) (isSaving s) false (JStr "") "Deleted.").
  { subst s'. unfold handle, onDelete. rewrite Hsel. cbn [optProp]. rewrite Hid. cbn.
    rewrite Hyes. cbn. rewrite run_deleteNote in Hok.
    repeat (progress run_step).
    destruct (attemptEncoded _ _ env _) as [[d|e'] tr']; cbn in *; [|discriminate].
    repeat (progress run_step). unfold finalState. cbn.
    rewrite sameString_sym, Hsame. reflexivity. }
  rewrite Hrun. cbn [notes selectedId isDirty].
  split; [reflexivity|]. split.
  { intros Hn. apply withoutId_In in Hn. rewrite sameString_refl in Hn. destruct Hn; discriminate. }
  split; [exact Hfirst|]. split; [|reflexivity].
  unfold selectedNote. cbn [notes selectedId]. rewrite Hfirst.
  destruct remaining as [|m rest]; [reflexivity|].
  simpl. rewrite sameString_refl. reflexivity.
Qed.

(** ** The collection invariant *)

Lemma refreshNotes_run s keep env tr st :
  exists tr' st',
    run (refreshNotes s keep) env tr st = (Normal tt, tr', st') /\
    (notes st' = notes st \/ exists data, notes st' = normalizeAll data) /\
    isDirty st' = isDirty st.
Proof.
  unfold refreshNotes. repeat (progress run_step). rewrite run_listNotes.
  destruct (attemptTwice _ _ env tr) as [[d|e] tr']; cbn.
  - destruct keep; cbn.
    + destruct (isNullish (selectedId s) && _); cbn; [eauto 7|].
      destruct (isNullish (selectedId s)); cbn; [eauto 7|].
      destruct (existsb _ _); cbn; eauto 7.
    + eauto 7.
  - eauto 7.
Qed.

Lemma normalizeAll_idsPresent data : idsPresent (normalizeAll data).
Proof.
  eapply Forall_impl; [apply normalizeAll_hasId|].
  intros n Hn. unfold hasId in Hn. destruct (isNullish _); [discriminate|reflexivity].
Qed.

Lemma refreshed_idsPresent l l' :
  idsPresent l -> l' = l \/ (exists data, l' = normalizeAll data) -> idsPresent l'.
Proof. intros H [->|[data ->]]; [exact H|apply normalizeAll_idsPresent]. Qed.

Lemma prop_spread_id n raw : prop (spread n (normalizeNote raw)) "id" = prop (normalizeNote raw) "id".
Proof. unfold prop. rewrite spread_lookup. reflexivity. Qed.

Lemma mergeSaved_idsPresent raw l :
  isNullish (prop (normalizeNote raw) "id") = false ->
  idsPresent l -> idsPresent (mergeSaved (normalizeNote raw) l).
Proof.
  intros Hid Hl. unfold mergeSaved, idsPresent. apply Forall_map.
  eapply Forall_impl; [exact Hl|]. intros n Hn. cbn beta.
  destruct (sameString _ _); [rewrite prop_spread_id; exact Hid|exact Hn].
Qed.

Lemma withoutId_idsPresent id l : idsPresent l -> idsPresent (withoutId id l).
Proof.
  unfold idsPresent. rewrite !Forall_forall. intros H n Hn.
  apply list_elem_of_In, withoutId_In in Hn. apply H, list_elem_of_In, Hn.
Qed.

(** X24: Every handler keeps the invariant of the collection, whatever
    the server and the user do: when every note has an id before a handler
    runs, every note has one after it. *)
Theorem handlers_keep_ids (trim : string -> string) (trimTypeError : jsval -> jsval)
    (s : State) (env : Env) :
  idsPresent (notes s) ->
  (forall keep, idsPresent (notes (finalState (handle (refreshNotes s keep) env s)))) /\
  (forall id, idsPresent (notes (finalState (handle (onSelectNote s id) env s)))) /\
  idsPresent (notes (finalState (handle (onNewNote s) env s))) /\
  idsPresent (notes (finalState (handle (onSave trim trimTypeError s) env s))) /\
  idsPresent (notes (finalState (handle (onDelete s) env s))).
Proof.
  intros Hs. unfold handle. repeat split.
  - intros keep. destruct (refreshNotes_run s keep env [] s) as (tr' & st' & -> & Hn & _).
    eapply refreshed_idsPresent; eassumption.
  - intros id. unfold onSelectNote.
    destruct (isDirty s && _ && _); cbn; [destruct (confirms env [] _); cbn|]; exact Hs.
  - assert (Hbody : forall tr st, notes st = notes s ->
                idsPresent (notes (finalState (run (newNoteBody s) env tr st)))).
    { intros tr st Hst. unfold newNoteBody. repeat (progress run_step).
      unfold attemptTwice.
      assert (Hafter : forall created tr1 st1, notes st1 = notes s ->
                idsPresent (notes (finalState
                  (run (if isNullish (prop (normalizeNote (created ||| JObj ∅)) "id")
                        then refreshNotes s false
                        else emit (setNotes (fun prev => normalizeNote (created ||| JObj ∅) :: prev)) ;;
                             emit (setSelectedId (fun _ => prop (normalizeNote (created ||| JObj ∅)) "id")))
                       env tr1 st1)))).
      { intros created tr1 st1 Hst1.
        destruct (isNullish (prop (normalizeNote (created ||| JObj ∅)) "id")) eqn:E.
        - destruct (refreshNotes_run s false env tr1 st1) as (tr' & st' & -> & Hn & _).
          eapply refreshed_idsPresent; [exact Hs|]. rewrite Hst1 in Hn. exact Hn.
        - cbn. constructor; [exact E|]. rewrite Hst1. exact Hs. }
      destruct (respond env tr _) as [d|e1]; cbn.
      - repeat (progress run_step).
        match goal with
        | |- context [run ?m env ?tr1 ?st1] =>
            specialize (Hafter d tr1 st1 Hst); cbn in Hafter;
            destruct (run m env tr1 st1) as [[[[]|e] tr'] st']
        end; exact Hafter.
      - destruct (respond env _ _) as [d|e2]; cbn.
        + repeat (progress run_step).
          match goal with
          | |- context [run ?m env ?tr1 ?st1] =>
              specialize (Hafter d tr1 st1 Hst); cbn in Hafter;
              destruct (run m env tr1 st1) as [[[[]|e] tr'] st']
          end; exact Hafter.
        + rewrite Hst. exact Hs. }
    unfold onNewNote. repeat (progress run_step).
    destruct (isDirty s && _); cbn.
    + destruct (confirms env [] _); cbn; [apply Hbody; reflexivity|exact Hs].
    + apply Hbody; reflexivity.
  - unfold onSave. destruct (truthy _); cbn; [|exact Hs].
    repeat (progress run_step).
    destruct (editorTitle s); cbn; try exact Hs.
    repeat (progress run_step).
    destruct (attemptEncoded _ _ env []) as [[d|e] tr']; cbn; [|exact Hs].
    destruct (isNullish (prop (normalizeNote (d ||| JObj ∅)) "id")) eqn:E.
    + rewrite run_bind.
      match goal with
      | |- context [run (refreshNotes s true) env ?tr ?st] =>
          destruct (refreshNotes_run s true env tr st) as (tr'' & st'' & -> & Hn & _)
      end.
      cbn. eapply refreshed_idsPresent; [exact Hs|exact Hn].
    + cbn. apply mergeSaved_idsPresent; assumption.
  - unfold onDelete. destruct (truthy _); cbn; [|exact Hs].
    destruct (confirms env [] _); cbn; [|exact Hs].
    repeat (progress run_step).
    destruct (attemptEncoded _ _ env _) as [[d|e] tr']; cbn; [|exact Hs].
    repeat (progress run_step). apply withoutId_idsPresent, Hs.
Qed.

(** ** The sorted view *)

Section InsertionSort.
Context {A : Type}.
Variable cmp : A -> A -> option Z.
(** The elements the comparator is consistent on, and the order it
    induces there. *)
Variable P : A -> Prop.
Variable R : A -> A -> Prop.
Hypothesis before_R : forall x y, P x -> P y -> keepsBefore cmp x y = true -> R x y.
Hypothesis after_R : forall x y, P x -> P y -> keepsBefore cmp x y = false -> R y x.
Hypothesis R_trans : forall x y z, R x y -> R y z -> R x z.

Lemma insertSorted_perm x l : Permutation (x :: l) (insertSorted cmp x l).
Proof.
  induction l as [|y l IH]; simpl; [reflexivity|].
  destruct (keepsBefore cmp x y); [reflexivity|].
  rewrite perm_swap. apply perm_skip, IH.
Qed.

Lemma arraySort_perm l : Permutation l (arraySort cmp l).
Proof.
  induction l as [|x l IH]; simpl; [reflexivity|].
  rewrite <- insertSorted_perm. apply perm_skip, IH.
Qed.

Lemma insertSorted_sorted x l :
  P x -> Forall P l -> StronglySorted R l -> StronglySorted R (insertSorted cmp x l).
Proof.
  intros Px Pl Hs. induction l as [|y l IH]; simpl.
  - repeat constructor.
  - inversion Pl as [|? ? Py Pl']; subst. inversion Hs as [|? ? Hs' Hy]; subst.
    destruct (keepsBefore cmp x y) eqn:E.
    + constructor; [exact Hs|]. constructor; [apply before_R; assumption|].
      eapply Forall_impl; [exact Hy|]. intros z Hz. eapply R_trans; [|exact Hz].
      apply before_R; assumption.
    + constructor; [apply IH; assumption|].
      rewrite <- (insertSorted_perm x l). constructor; [apply after_R; assumption|exact Hy].
Qed.

Lemma arraySort_sorted l : Forall P l -> StronglySorted R (arraySort cmp l).
Proof.
  induction l as [|x l IH]; simpl; intros Pl; [constructor|].
  inversion Pl as [|? ? Px Pl']; subst.
  apply insertSorted_sorted; [exact Px| |apply IH; exact Pl'].
  rewrite <- (arraySort_perm l). exact Pl'.
Qed.
End InsertionSort.

Lemma StronglySorted_lookup {A : Type} (R : A -> A -> Prop) (l : list A) :
  StronglySorted R l ->
  forall (i j : nat) (x y : A), (i < j)%nat -> l !! i = Some x -> l !! j = Some y -> R x y.
Proof.
  induction 1 as [|a l Hs IH Ha]; intros i j x y Hij Hi Hj; [discriminate|].
  destruct j as [|j]; [lia|]. simpl in Hj. destruct i as [|i]; simpl in Hi.
  - injection Hi as <-. rewrite Forall_forall in Ha. apply Ha.
    apply list_elem_of_lookup. eauto.
  - apply (IH i j); [lia|assumption|assumption].
Qed.

Section SortedViewProperties.
Variable Date_parse : string -> option Z.
Variable localeCompare : string -> string -> Z.
(** [localeCompare] is a consistent comparator. *)
Hypothesis localeCompare_total :
  forall a b, 0 < localeCompare a b -> localeCompare b a <= 0.
Hypothesis localeCompare_trans :
  forall a b c, localeCompare a b <= 0 -> localeCompare b c <= 0 -> localeCompare a c <= 0.

Lemma compareNotes_before a b :
  noteTime Date_parse a <> None -> noteTime Date_parse b <> None ->
  keepsBefore (compareNotes Date_parse localeCompare) a b = true ->
  viewOrder Date_parse localeCompare a b.
Proof.
  unfold keepsBefore, compareNotes, viewOrder.
  destruct (noteTime Date_parse a) as [ta|], (noteTime Date_parse b) as [tb|]; try congruence.
  intros _ _ H. exists ta, tb. split; [reflexivity|]. split; [reflexivity|].
  destruct (Z.eqb_spec tb ta) as [E|E]; simpl in H; apply Z.leb_le in H.
  - right. split; [exact E|exact H].
  - left. lia.
Qed.

Lemma compareNotes_after a b :
  noteTime Date_parse a <> None -> noteTime Date_parse b <> None ->
  keepsBefore (compareNotes Date_parse localeCompare) a b = false ->
  viewOrder Date_parse localeCompare b a.
Proof.
  unfold keepsBefore, compareNotes, viewOrder.
  destruct (noteTime Date_parse a) as [ta|], (noteTime Date_parse b) as [tb|]; try congruence.
  intros _ _ H. exists tb, ta. split; [reflexivity|]. split; [reflexivity|].
  destruct (Z.eqb_spec tb ta) as [E|E]; simpl in H; apply Z.leb_gt in H.
  - right. split; [congruence|]. apply localeCompare_total. exact H.
  - left. lia.
Qed.

Lemma viewOrder_trans a b c :
  viewOrder Date_parse localeCompare a b -> viewOrder Date_parse localeCompare b c ->
  viewOrder Date_parse localeCompare a c.
Proof.
  unfold viewOrder.
  intros (ta & tb & Ha & Hb & Hab) (tb' & tc & Hb' & Hc & Hbc).
  rewrite Hb in Hb'. injection Hb' as <-.
  exists ta, tc. split; [assumption|]. split; [assumption|].
  destruct Hab as [Hab|[-> Hab]], Hbc as [Hbc|[-> Hbc]]; try (left; lia).
  right. split; [reflexivity|]. eapply localeCompare_trans; eassumption.
Qed.

Lemma sortedNotes_strongly_sorted l :
  Forall (fun n => noteTime Date_parse n <> None) l ->
  StronglySorted (viewOrder Date_parse localeCompare) (sortedNotes Date_parse localeCompare l).
Proof.
  apply (arraySort_sorted (compareNotes Date_parse localeCompare)
           (fun n => noteTime Date_parse n <> None) (viewOrder Date_parse localeCompare)).
  - apply compareNotes_before.
  - apply compareNotes_after.
  - apply viewOrder_trans.
Qed.
End SortedViewProperties.

(** C1, as stated, fails: a note updated at epoch zero and created later
    is placed by its creation time, ahead of a note whose [updatedAt] is
    larger than zero. *)
Lemma sortedNotes_skips_zero_updatedAt :
  sortedNotes Sample.Date_parse Sample.localeCompare [Sample.late; Sample.early]
    = [Sample.early; Sample.late] /\
  specNoteTime Sample.Date_parse Sample.early = Some 0 /\
  specNoteTime Sample.Date_parse Sample.late = Some 500 /\
  ~ descendingBy (specNoteTime Sample.Date_parse)
      (sortedNotes Sample.Date_parse Sample.localeCompare [Sample.late; Sample.early]).
Proof.
  assert (E : sortedNotes Sample.Date_parse Sample.localeCompare [Sample.late; Sample.early]
              = [Sample.early; Sample.late]) by (vm_compute; reflexivity).
  split; [exact E|]. split; [reflexivity|]. split; [reflexivity|].
  rewrite E. intros H.
  specialize (H 0%nat 1%nat Sample.early Sample.late 0 500).
  assert (500 <= 0) by (apply H; [lia|reflexivity..]). lia.
Qed.

(** C1 (amended): the sorted view is a rearrangement of the collection in
    which, when every note has a valid date, each note comes before every
    note of smaller effective timestamp, the effective timestamp being
    [updatedAt] if truthy, else [createdAt] if truthy, else epoch zero, and
    notes of equal effective timestamp are in ascending order of their
    titles under [localeCompare]. *)
Theorem sortedNotes_descending_then_title
    (Date_parse : string -> option Z) (localeCompare : string -> string -> Z)
    (notes : list obj) :
  (forall a b, 0 < localeCompare a b -> localeCompare b a <= 0) ->
  (forall a b c, localeCompare a b <= 0 -> localeCompare b c <= 0 -> localeCompare a c <= 0) ->
  Forall (fun n => getTime Date_parse (prop n "updatedAt" ||| prop n "createdAt" ||| JNum 0) <> None)
         notes ->
  let view := sortedNotes Date_parse localeCompare notes in
  Permutation notes view /\
  (forall (i j : nat) (x y : obj),
      (i < j)%nat -> view !! i = Some x -> view !! j = Some y ->
      viewOrder Date_parse localeCompare x y).
Proof.
  intros Htotal Htrans Hvalid view. split.
  - apply arraySort_perm.
  - apply StronglySorted_lookup.
    apply sortedNotes_strongly_sorted; assumption.
Qed.

(** ** The properties on the sample host and environment *)

Lemma sample_localeCompare_total a b :
  0 < Sample.localeCompare a b -> Sample.localeCompare b a <= 0.
Proof.
  unfold Sample.localeCompare.
  destruct (String_as_OT.compare_spec a b) as [E|L|G]; try lia.
  intros _. unfold String_as_OT.lt in G. rewrite G. lia.
Qed.

Lemma sample_localeCompare_trans a b c :
  Sample.localeCompare a b <= 0 -> Sample.localeCompare b c <= 0 ->
  Sample.localeCompare a c <= 0.
Proof.
  unfold Sample.localeCompare.
  intros Hab Hbc.
  destruct (String_as_OT.compare_spec a b) as [Eab|Lab|Gab];
    [unfold String_as_OT.eq in Eab; subst; exact Hbc| |lia].
  destruct (String_as_OT.compare_spec b c) as [Ebc|Lbc|Gbc];
    [unfold String_as_OT.eq in Ebc; subst| |lia].
  - unfold String_as_OT.lt in Lab. rewrite Lab. lia.
  - assert (Lac : String_as_OT.lt a c) by (etransitivity; eassumption).
    unfold String_as_OT.lt in Lac. rewrite Lac. lia.
Qed.

Example sortedNotes_ties_by_title :
  let b := mkNote (JNum 1) (JStr "b") (JStr "") JNull JNull in
  let a := mkNote (JNum 2) (JStr "a") (JStr "") JNull JNull in
  let c := mkNote (JNum 3) (JStr "c") (JStr "") JNull (JNum 5) in
  sortedNotes Sample.Date_parse Sample.localeCompare [b; a; c] = [c; a; b].
Proof. vm_compute. reflexivity. Qed.

Lemma sortedNotes_descending_then_title_witness :
  let view := sortedNotes Sample.Date_parse Sample.localeCompare [Sample.late; Sample.early] in
  Permutation [Sample.late; Sample.early] view /\
  (forall (i j : nat) (x y : obj),
      (i < j)%nat -> view !! i = Some x -> view !! j = Some y ->
      viewOrder Sample.Date_parse Sample.localeCompare x y).
Proof.
  apply (sortedNotes_descending_then_title Sample.Date_parse Sample.localeCompare
           [Sample.late; Sample.early]).
  - apply sample_localeCompare_total.
  - apply sample_localeCompare_trans.
  - repeat constructor; discriminate.
Defined.

Lemma createNote_tries_alternate_once_witness :
  let note := JObj (<["title" := JStr "Untitled"]> (<["content" := JStr ""]> ∅)) in
  let r := run (createNote note) Sample.failing [] Sample.editing in
  trace r = [Requested (POST "/notes" note) (Rejected (Sample.failure "500" (POST "/notes" note)));
             Requested (POST "/api/notes" note)
                       (Rejected (Sample.failure "500" (POST "/api/notes" note)))] /\
  completion r = Abrupt (Sample.failure "500" (POST "/api/notes" note)).
Proof.
  intros note r.
  exact (createNote_tries_alternate_once note Sample.failing [] Sample.editing
           (Sample.failure "500" (POST "/notes" note)) eq_refl).
Defined.

Lemma onSelectNote_declined_is_noop_witness :
  let r := handle (onSelectNote Sample.editing (JNum 2)) Sample.failing Sample.editing in
  completion r = Normal tt /\
  finalState r = Sample.editing /\
  selectedId (finalState r) = JNum 1 /\
  editorTitle (finalState r) = JStr "A" /\
  editorContent (finalState r) = JStr "edited" /\
  isDirty (finalState r) = true.
Proof.
  apply (onSelectNote_declined_is_noop Sample.editing (JNum 2) Sample.failing);
    (reflexivity || (intros; reflexivity)).
Defined.

Lemma onSave_failure_keeps_draft_witness :
  let s' := finalState (handle (onSave Sample.trim Cases.trimTypeError Sample.editing) Sample.failing Sample.editing) in
  isDirty s' = true /\ notes s' = [Sample.noteA; Sample.noteB] /\
  error s' = messageOf (Sample.failure "500"
                          (PUT "/api/notes" "1" (savePayload (JStr "A") (JStr "edited"))))
                       "Failed to save note.".
Proof.
  apply (onSave_failure_keeps_draft Sample.trim Cases.trimTypeError Sample.editing Sample.failing "A");
    vm_compute; reflexivity.
Defined.

Lemma onSave_success_merges_response_witness :
  let response := JObj (<["id" := JStr "1"]> (<["title" := JStr "A"]>
                       (<["content" := JStr "edited"]> (<["updated_at" := JNum 1704067200000]> ∅)))) in
  let s' := finalState (handle (onSave Sample.trim Cases.trimTypeError Sample.editing)
                               (Sample.answering response) Sample.editing) in
  isDirty s' = false /\
  notes s' !! 0%nat = Some (spread Sample.noteA (normalizeNote response)) /\
  notes s' !! 1%nat = Some Sample.noteB.
Proof.
  intros response s'.
  destruct (onSave_success_merges_response Sample.trim Cases.trimTypeError Sample.editing
              (Sample.answering response) "A" response) as (Hd & _ & Hm & _);
    try (vm_compute; reflexivity).
  split; [exact Hd|]. split.
  - exact (Hm 0%nat Sample.noteA eq_refl).
  - exact (Hm 1%nat Sample.noteB eq_refl).
Defined.

Lemma onDelete_selects_first_remaining_witness :
  let s' := finalState (handle (onDelete Sample.editing) (Sample.answering JNull) Sample.editing) in
  notes s' = [Sample.noteB] /\
  ~ In Sample.noteA (notes s') /\
  selectedId s' = JStr "b/2" /\
  selectedNote s' = Some Sample.noteB /\
  isDirty s' = false.
Proof.
  apply (onDelete_selects_first_remaining Sample.editing (Sample.answering JNull)
           Sample.noteA JNull).
  - reflexivity.
  - reflexivity.
  - repeat constructor.
  - intros; reflexivity.
  - reflexivity.
Defined.

(** * Further properties of the client *)

(** ** Configuration and URL *)

Lemma append_not_empty (t : string) (c : ascii) :
  String.append t (String c EmptyString) <> EmptyString.
Proof. destruct t; discriminate. Qed.

Lemma stripTrailingSlashes_no_trailing (s t : string) :
  stripTrailingSlashes s <> String.append t "/".
Proof.
  revert t. induction s as [|c rest IH]; intros t; simpl.
  - intros H. symmetry in H. exact (append_not_empty t "/"%char H).
  - destruct (Ascii.eqb c "/" && String.eqb (stripTrailingSlashes rest) "") eqn:E.
    + intros H. symmetry in H. exact (append_not_empty t "/"%char H).
    + destruct t as [|c' t']; simpl; intros H; injection H as Hc Hrest.
      * subst c. rewrite Hrest in E. discriminate E.
      * exact (IH t' Hrest).
Qed.

Lemma stripTrailingSlashes_tail (s : string) :
  exists tail,
    s = String.append (stripTrailingSlashes s) tail /\
    Forall (fun c => c = "/"%char) (String.list_ascii_of_string tail).
Proof.
  induction s as [|c rest (tail & Hrest & Htail)]; simpl.
  - exists EmptyString. split; [reflexivity|constructor].
  - destruct (Ascii.eqb c "/" && String.eqb (stripTrailingSlashes rest) "") eqn:E.
    + apply andb_true_iff in E. destruct E as [Ec Er].
      apply Ascii.eqb_eq in Ec. apply String.eqb_eq in Er. subst c.
      exists (String "/" tail). rewrite Er in Hrest. simpl in Hrest. subst rest.
      split; [reflexivity|]. constructor; [reflexivity|exact Htail].
    + exists tail. split; [rewrite Hrest at 1; reflexivity|exact Htail].
Qed.

(** The variable the base URL is read from: the first of the two that is
    set and not empty. *)
Lemma getApiBaseUrl_source (penv : ProcessEnv) :
  getApiBaseUrl penv =
  stripTrailingSlashes
    match REACT_APP_API_BASE penv with
    | Some (String c a) => String c a
    | _ => match REACT_APP_BACKEND_URL penv with
           | Some b => b
           | None => ""
           end
    end.
Proof.
  unfold getApiBaseUrl.
  destruct (REACT_APP_API_BASE penv) as [[|c a]|], (REACT_APP_BACKEND_URL penv) as [[|c' b]|];
    reflexivity.
Qed.

(** X1: [getApiBaseUrl] returns the first of the two variables that
    is set and not empty, without the slashes that end it: the result
    never ends with a slash, and is empty when neither is set. *)
Theorem getApiBaseUrl_strips_trailing_slashes (penv : ProcessEnv) :
  let chosen := match REACT_APP_API_BASE penv with
                | Some (String c a) => String c a
                | _ => match REACT_APP_BACKEND_URL penv with
                       | Some b => b
                       | None => ""
                       end
                end in
  (exists tail,
      chosen = String.append (getApiBaseUrl penv) tail /\
      Forall (fun c => c = "/"%char) (String.list_ascii_of_string tail)) /\
  (forall t, getApiBaseUrl penv <> String.append t "/").
Proof.
  intros chosen. rewrite getApiBaseUrl_source. fold chosen. split.
  - apply stripTrailingSlashes_tail.
  - intros t. apply stripTrailingSlashes_no_trailing.
Qed.

Lemma normalizedPath_slash (p : string) :
  exists rest, normalizedPath p = String "/" rest /\ (p = String "/" rest \/ p = rest).
Proof.
  unfold normalizedPath. destruct (String.prefix "/" p) eqn:E.
  - destruct p as [|c p]; [discriminate E|]. cbn [String.prefix] in E.
    destruct (Ascii.ascii_dec "/" c) as [<-|Hc]; [|discriminate E].
    exists p. auto.
  - exists p. auto.
Qed.

(** X2: [buildUrl] joins the base and the path with exactly one slash: to a
    path that starts with a slash it only prefixes the base, to any other
    path it prefixes the base and a slash, and the base ends with no
    slash. *)
Theorem buildUrl_joins_with_one_slash (penv : ProcessEnv) (p : string) :
  buildUrl penv p =
    String.append (getApiBaseUrl penv)
      match p with
      | String c _ => if Ascii.eqb c "/" then p else String "/" p
      | EmptyString => "/"
      end /\
  (forall t, getApiBaseUrl penv <> String.append t "/").
Proof.
  split.
  - unfold buildUrl, normalizedPath.
    assert (E : (if String.prefix "/" p then p else String "/" p) =
                match p with
                | String c _ => if Ascii.eqb c "/" then p else String "/" p
                | EmptyString => "/"
                end).
    { destruct p as [|c p]; [reflexivity|]. cbn [String.prefix].
      destruct (Ascii.ascii_dec "/" c) as [<-|Hc].
      - rewrite Ascii.eqb_refl. destruct p; reflexivity.
      - destruct (Ascii.eqb_spec c "/") as [->|_]; [congruence|reflexivity]. }
    rewrite E. destruct (getApiBaseUrl penv); reflexivity.
  - intros t. rewrite getApiBaseUrl_source. apply stripTrailingSlashes_no_trailing.
Qed.

Example buildUrl_client_paths :
  buildUrl (mkProcessEnv (Some "http://a/") None) "/notes" = "http://a/notes" /\
  buildUrl (mkProcessEnv None None) "/api/notes/7" = "/api/notes/7".
Proof. split; reflexivity. Qed.

Example buildUrl_sample :
  buildUrl (mkProcessEnv (Some "") (Some "https://api.example.org//")) "notes/7"
  = "https://api.example.org/notes/7".
Proof. reflexivity. Qed.

(** ** Responses *)

Lemma prefix_append (a b : string) : String.prefix a (String.append a b) = true.
Proof.
  induction a as [|c a IH]; simpl; [destruct b; reflexivity|].
  destruct (Ascii.ascii_dec c c) as [_|N]; [exact IH|congruence].
Qed.

Lemma string_append_assoc (a b c : string) :
  String.append (String.append a b) c = String.append a (String.append b c).
Proof.
  induction a as [|x a IH]; [reflexivity|].
  change (String x (String.append (String.append a b) c)
          = String x (String.append a (String.append b c))).
  f_equal. exact IH.
Qed.

Section TransportProperties.
Variable JSON_parse : string -> Completion jsval.
Variable JSON_stringify : jsval -> string.

(** X3: A response whose status is outside 2xx always makes [request]
    throw, also when its body cannot be read: the error carries the status,
    and its message starts with [Request failed (status]. *)
Theorem parseJsonOrThrow_rejects_non_2xx (r : Response) :
  ok r = false ->
  let err := httpError JSON_parse JSON_stringify r in
  parseJsonOrThrow JSON_parse JSON_stringify r = Abrupt err /\
  settle JSON_parse JSON_stringify (Responded r) = Rejected err /\
  getProp err "status" = JNum (status r) /\
  exists msg, getProp err "message" = JStr msg /\
    String.prefix (String.append "Request failed (" (ToString (JNum (status r)))) msg = true.
Proof.
  intros Hok err. subst err. unfold settle, parseJsonOrThrow. rewrite Hok. simpl.
  split; [reflexivity|]. split; [reflexivity|]. split; [reflexivity|].
  unfold httpError. cbv zeta.
  match goal with
  | |- context [if ?c then _ else _] => destruct c
  end; eexists; (split; [reflexivity|]); rewrite <- string_append_assoc; apply prefix_append.
Qed.

Lemma parse_non_json (r : Response) :
  ok r = true ->
  status r = 204 \/ isJson r = false ->
  exists v,
    parseJsonOrThrow JSON_parse JSON_stringify r = Normal v /\
    (v = JNull \/ v = JObj (<["raw" := JStr (bodyText r)]> ∅)) /\
    listShape v = [] /\
    isNullish (prop (normalizeNote (v ||| JObj ∅)) "id") = true.
Proof.
  intros Hok Hshape. unfold parseJsonOrThrow. rewrite Hok. simpl.
  destruct (Z.eqb_spec (status r) 204) as [E|E].
  - exists JNull. auto.
  - destruct Hshape as [H|H]; [contradiction|]. rewrite H.
    destruct (negb (String.eqb (bodyText r) "")); eexists; split; try reflexivity; auto.
Qed.

(** X4: A 2xx response that is a 204, or that does not announce JSON,
    never makes [request] throw, whatever its body: it resolves with [null]
    or with the text wrapped as [{ raw }], a value in which [listNotes]
    finds no note and normalization no id. *)
Theorem parseJsonOrThrow_tolerates_non_json (r : Response) :
  ok r = true ->
  status r = 204 \/ isJson r = false ->
  exists v,
    parseJsonOrThrow JSON_parse JSON_stringify r = Normal v /\
    (v = JNull \/ v = JObj (<["raw" := JStr (bodyText r)]> ∅)) /\
    listShape v = [] /\
    isNullish (prop (normalizeNote (v ||| JObj ∅)) "id") = true.
Proof. apply parse_non_json. Qed.

(** X5: When the primary path answers [listNotes] with such a
    response (a web page, say), the list is empty and the alternate path
    is never requested. *)
Theorem listNotes_keeps_non_json_primary
    (penv : ProcessEnv) (fetch : list Event -> string -> Request -> FetchResult)
    (user : list Event -> string -> bool) (tr : list Event) (st : State) (r : Response) :
  fetch tr (buildUrl penv "/notes") (GET "/notes") = Responded r ->
  ok r = true ->
  status r = 204 \/ isJson r = false ->
  exists v,
    run listNotes (overFetch JSON_parse JSON_stringify penv fetch user) tr st =
    (Normal [], (tr ++ [Requested (GET "/notes") (Resolved v)])%list, st).
Proof.
  intros Hfetch Hok Hshape.
  destruct (parse_non_json r Hok Hshape) as (v & Hv & _ & Hlist & _).
  exists v. rewrite run_listNotes. unfold attemptTwice, overFetch. cbn [respond path GET].
  rewrite Hfetch. unfold settle. rewrite Hv, Hlist. reflexivity.
Qed.
End TransportProperties.

(** ** Candidates and paths *)

(** X6: [updateNote] and [deleteNote] request the primary
    path first and stop there when it resolves; otherwise they request the
    alternate once and complete as it does, with its error when it fails
    too.  They never change the state. *)
Theorem updateNote_deleteNote_try_in_order
    (id note : jsval) (encoded : string) (env : Env) (tr : list Event) (st : State) :
  encodeURIComponent id = Normal encoded ->
  (let r1 := PUT "/notes" encoded note in
   let r2 := PUT "/api/notes" encoded note in
   run (updateNote id note) env tr st =
   match respond env tr r1 with
   | Resolved d => (Normal d, (tr ++ [Requested r1 (Resolved d)])%list, st)
   | Rejected e1 =>
       let tr1 := (tr ++ [Requested r1 (Rejected e1)])%list in
       match respond env tr1 r2 with
       | Resolved d => (Normal d, (tr1 ++ [Requested r2 (Resolved d)])%list, st)
       | Rejected e2 => (Abrupt e2, (tr1 ++ [Requested r2 (Rejected e2)])%list, st)
       end
   end) /\
  (let r1 := DELETE "/notes" encoded in
   let r2 := DELETE "/api/notes" encoded in
   run (deleteNote id) env tr st =
   match respond env tr r1 with
   | Resolved d => (Normal d, (tr ++ [Requested r1 (Resolved d)])%list, st)
   | Rejected e1 =>
       let tr1 := (tr ++ [Requested r1 (Rejected e1)])%list in
       match respond env tr1 r2 with
       | Resolved d => (Normal d, (tr1 ++ [Requested r2 (Resolved d)])%list, st)
       | Rejected e2 => (Abrupt e2, (tr1 ++ [Requested r2 (Rejected e2)])%list, st)
       end
   end).
Proof.
  intros Henc. rewrite run_updateNote, run_deleteNote. unfold attemptEncoded, attemptTwice.
  rewrite Henc. cbv zeta. split.
  - destruct (respond env tr _) as [d|e1]; [reflexivity|].
    destruct (respond env _ _) as [d|e2]; reflexivity.
  - destruct (respond env tr _) as [d|e1]; [reflexivity|].
    destruct (respond env _ _) as [d|e2]; reflexivity.
Qed.

(** X7: When the primary path accepts the note, [createNote] returns
    its answer after that single request: the note is not posted again. *)
Theorem createNote_primary_success_posts_once
    (note created : jsval) (env : Env) (tr : list Event) (st : State) :
  respond env tr (POST "/notes" note) = Resolved created ->
  run (createNote note) env tr st =
  (Normal created, (tr ++ [Requested (POST "/notes" note) (Resolved created)])%list, st).
Proof.
  intros H. rewrite run_createNote. unfold attemptTwice. rewrite H. reflexivity.
Qed.

Lemma hexDigit_code (k : N) :
  (k < 16)%N -> N_of_ascii (hexDigit k) = (if N.ltb k 10 then 48 + k else 55 + k)%N.
Proof.
  intros Hk. unfold hexDigit. apply N_ascii_embedding.
  destruct (N.ltb_spec k 10); lia.
Qed.

Lemma hexDigit_inj (a b : N) : (a < 16)%N -> (b < 16)%N -> hexDigit a = hexDigit b -> a = b.
Proof.
  intros Ha Hb H. apply (f_equal N_of_ascii) in H.
  rewrite !hexDigit_code in H by assumption.
  destruct (N.ltb_spec a 10), (N.ltb_spec b 10); lia.
Qed.

Lemma percentEncode_inj (c1 c2 : ascii) :
  hexDigit (N_of_ascii c1 / 16) = hexDigit (N_of_ascii c2 / 16) ->
  hexDigit (N_of_ascii c1 mod 16) = hexDigit (N_of_ascii c2 mod 16) ->
  c1 = c2.
Proof.
  intros Hh Hl.
  pose proof (N_ascii_bounded c1) as B1. pose proof (N_ascii_bounded c2) as B2.
  apply hexDigit_inj in Hh;
    [|apply N.Div0.div_lt_upper_bound; lia|apply N.Div0.div_lt_upper_bound; lia].
  apply hexDigit_inj in Hl; [|apply N.mod_lt; lia|apply N.mod_lt; lia].
  rewrite <- (ascii_N_embedding c1), <- (ascii_N_embedding c2). f_equal.
  rewrite (N.div_mod (N_of_ascii c1) 16), (N.div_mod (N_of_ascii c2) 16) by lia.
  rewrite Hh, Hl. reflexivity.
Qed.

Lemma encodeBytes_inj (a b : string) : encodeBytes a = encodeBytes b -> a = b.
Proof.
  revert b. induction a as [|c1 a IH]; intros [|c2 b]; simpl; unfold percentEncode.
  - reflexivity.
  - destruct (isUnreserved c2); discriminate.
  - destruct (isUnreserved c1); discriminate.
  - destruct (isUnreserved c1) eqn:U1, (isUnreserved c2) eqn:U2; intros H.
    + injection H as -> H. f_equal. exact (IH b H).
    + injection H as -> _. discriminate U1.
    + injection H as <- _. discriminate U2.
    + injection H as Hh Hl H. f_equal; [exact (percentEncode_inj c1 c2 Hh Hl)|exact (IH b H)].
Qed.

Lemma append_cancel_l (a x y : string) : String.append a x = String.append a y -> x = y.
Proof.
  induction a as [|c a IH]; [auto|].
  change (String c (String.append a x) = String c (String.append a y) -> x = y).
  intros H. injection H as H. exact (IH H).
Qed.

(** X8: For a given candidate, two ids are sent to the same path
    exactly when their strings are equal, which is when the application
    treats them as the same id. *)
Theorem notePath_same_exactly_for_same_id
    (base : string) (a b : jsval) (ea eb : string) :
  encodeURIComponent a = Normal ea ->
  encodeURIComponent b = Normal eb ->
  (joinPath base ea = joinPath base eb <-> sameString a b = true).
Proof.
  unfold encodeURIComponent, sameString. cbv zeta.
  destruct (hasLoneSurrogate (ToString a)); [discriminate|].
  destruct (hasLoneSurrogate (ToString b)); [discriminate|].
  intros Ha Hb. injection Ha as <-. injection Hb as <-.
  rewrite String.eqb_eq. unfold joinPath. split.
  - intros H. apply append_cancel_l in H.
    change (String "/" (encodeBytes (ToString a)) = String "/" (encodeBytes (ToString b))) in H.
    injection H as H. exact (encodeBytes_inj _ _ H).
  - intros ->. reflexivity.
Qed.

(** * Further properties of the controller *)

(** ** Refresh *)

Lemma requestsOf_app (a b : list Event) :
  requestsOf (a ++ b) = (requestsOf a ++ requestsOf b)%list.
Proof. unfold requestsOf. apply omap_app. Qed.

Lemma attemptTwice_requests r1 r2 env tr :
  exists evs,
    snd (attemptTwice r1 r2 env tr) = (tr ++ evs)%list /\
    (requestsOf evs = [r1] \/ requestsOf evs = [r1; r2]).
Proof.
  unfold attemptTwice. destruct (respond env tr r1) as [d|e1]; simpl.
  - eexists; split; [reflexivity|]. left; reflexivity.
  - destruct (respond env _ r2) as [d|e2]; simpl; rewrite <- app_assoc;
      (eexists; split; [reflexivity|]); right; reflexivity.
Qed.

(** What a refresh does to a store [st], whatever the server does: it
    completes normally after one or two GET requests, and touches neither
    the draft, nor the dirty flag, nor the busy flags, nor the message. *)
Lemma refreshNotes_frame s keep env tr st :
  exists evs st',
    run (refreshNotes s keep) env tr st = (Normal tt, (tr ++ evs)%list, st') /\
    (requestsOf evs = [GET "/notes"] \/ requestsOf evs = [GET "/notes"; GET "/api/notes"]) /\
    editorTitle st' = editorTitle st /\ editorContent st' = editorContent st /\
    isDirty st' = isDirty st /\ isLoading st' = isLoading st /\
    isSaving st' = isSaving st /\ isDeleting st' = isDeleting st /\ info st' = info st /\
    (notes st' = notes st \/ exists data, notes st' = normalizeAll data).
Proof.
  unfold refreshNotes. repeat (progress run_step). rewrite run_listNotes.
  destruct (attemptTwice_requests (GET "/notes") (GET "/api/notes") env tr) as (evs & Htr & Hreq).
  destruct (attemptTwice _ _ env tr) as [[d|e] tr']; cbn in Htr; subst tr'; cbn.
  - destruct keep; cbn.
    + destruct (isNullish (selectedId s) && _); cbn; [exists evs; eexists; eauto 15|].
      destruct (isNullish (selectedId s)); cbn; [exists evs; eexists; eauto 15|].
      destruct (existsb _ _); cbn; exists evs; eexists; eauto 15.
    + exists evs; eexists; eauto 15.
  - exists evs; eexists; eauto 15.
Qed.

Lemma refreshNotes_failure_selection s keep env tr st e :
  completion (run listNotes env tr st) = Abrupt e ->
  selectedId (finalState (run (refreshNotes s keep) env tr st)) = selectedId st.
Proof.
  unfold refreshNotes. rewrite run_bind, run_emit, run_catch, run_bind.
  rewrite !run_listNotes. unfold completion.
  destruct (attemptTwice _ _ env tr) as [[d|e'] tr']; cbn; [discriminate|reflexivity].
Qed.

(** X9: A refresh never changes the draft, the dirty flag or the
    busy flags; when listing fails it changes nothing but the error, which
    becomes the message of the failure. *)
Theorem refreshNotes_changes_only_collection_and_selection
    (s : State) (keepSelection : bool) (env : Env) :
  let s' := finalState (handle (refreshNotes s keepSelection) env s) in
  editorTitle s' = editorTitle s /\ editorContent s' = editorContent s /\
  isDirty s' = isDirty s /\ disableActions s' = disableActions s /\ info s' = info s /\
  match completion (run listNotes env [] s) with
  | Normal _ => error s' = JStr ""
  | Abrupt e =>
      notes s' = notes s /\ selectedId s' = selectedId s /\
      error s' = messageOf e "Failed to load notes."
  end.
Proof.
  intros s'. subst s'. unfold handle, disableActions.
  pose proof (refreshNotes_notes s keepSelection env [] s) as Hnotes.
  pose proof (refreshNotes_error s keepSelection env [] s) as [_ Herr].
  pose proof (refreshNotes_failure_selection s keepSelection env [] s) as Hsel.
  destruct (refreshNotes_frame s keepSelection env [] s)
    as (evs & st' & Hrun & _ & Ht & Hc & Hd & Hl & Hs & Hx & Hi & _).
  rewrite Hrun in *. unfold finalState in *. cbn [snd] in *.
  rewrite Ht, Hc, Hd, Hl, Hs, Hx, Hi. repeat (split; [reflexivity|]).
  destruct (completion (run listNotes env [] s)) as [data|e]; [exact Herr|].
  split; [exact Hnotes|]. split; [exact (Hsel e eq_refl)|exact Herr].
Qed.

Lemma existsb_find {A : Type} (p : A -> bool) (l : list A) :
  existsb p l = true -> exists x, List.find p l = Some x /\ In x l.
Proof.
  induction l as [|a l IH]; simpl; [discriminate|].
  destruct (p a) eqn:E; simpl; [eauto|].
  intros H. destruct (IH H) as (x & Hx & Hin). eauto.
Qed.

Lemma firstId_cons n rest :
  idsPresent (n :: rest) -> firstId (n :: rest) = prop n "id".
Proof.
  intros H. inversion H; subst. unfold firstId. cbn [head optProp].
  apply nullish_or_keep. assumption.
Qed.

Lemma find_head_by_id n rest :
  List.find (fun x => sameString (prop x "id") (prop n "id")) (n :: rest) = Some n.
Proof. simpl. rewrite sameString_refl. reflexivity. Qed.

(** X10: After a refresh that succeeds, a non-empty collection always
    has its selected note, and an empty one has no selection; a selection
    kept by request stays as it is when a note of the new collection still
    has its id, and otherwise the first fetched note is selected. *)
Theorem refreshNotes_selection_is_valid
    (s : State) (keepSelection : bool) (env : Env) (data : list jsval) :
  completion (run listNotes env [] s) = Normal data ->
  let s' := finalState (handle (refreshNotes s keepSelection) env s) in
  let kept := keepSelection && negb (isNullish (selectedId s)) &&
              existsb (fun n => sameString (prop n "id") (selectedId s)) (normalizeAll data) in
  notes s' = normalizeAll data /\
  match normalizeAll data with
  | [] => selectedNote s' = None /\ isNullish (selectedId s') = true
  | first :: _ =>
      (exists n, selectedNote s' = Some n /\ In n (normalizeAll data)) /\
      selectedId s' = (if kept then selectedId s else prop first "id")
  end.
Proof.
  intros Hok s' kept. subst s' kept. unfold handle.
  pose proof (normalizeAll_idsPresent data) as Hids.
  revert Hok. unfold refreshNotes. repeat (progress run_step). rewrite !run_listNotes.
  unfold completion, finalState, selectedNote.
  destruct (attemptTwice _ _ env []) as [[d|e] tr']; cbn; [|discriminate].
  intros [= ->]. destruct keepSelection; cbn.
  - destruct (isNullish (selectedId s)) eqn:Hn; cbn.
    + destruct (normalizeAll data) as [|n rest] eqn:E; cbn.
      * auto.
      * split; [reflexivity|]. inversion Hids; subst. split; [|reflexivity].
        exists n. rewrite sameString_refl. auto.
    + destruct (existsb _ (normalizeAll data)) eqn:Hex; cbn.
      * split; [reflexivity|]. destruct (normalizeAll data) as [|n rest] eqn:E; [discriminate Hex|].
        split; [|reflexivity].
        destruct (existsb_find _ _ Hex) as (x & Hx & Hin). exists x. split; assumption.
      * split; [reflexivity|]. destruct (normalizeAll data) as [|n rest] eqn:E.
        -- cbn. auto.
        -- rewrite (firstId_cons n rest Hids). split; [|reflexivity].
           exists n. rewrite find_head_by_id. split; [reflexivity|left; reflexivity].
  - split; [reflexivity|]. destruct (normalizeAll data) as [|n rest] eqn:E.
    + cbn. auto.
    + rewrite (firstId_cons n rest Hids). split; [|reflexivity].
      exists n. rewrite find_head_by_id. split; [reflexivity|left; reflexivity].
Qed.

(** ** Select *)

(** X11: Select asks for confirmation only with a dirty draft, a
    selection, and a target whose string differs from it.  Without that
    need it asks nothing, and then, or when the user confirms, it sets the
    selection to the target and changes nothing else. *)
Theorem onSelectNote_switches (s : State) (id : jsval) (env : Env) :
  let needsConfirm := isDirty s && negb (isNullish (selectedId s)) &&
                      negb (sameString id (selectedId s)) in
  let question := "You have unsaved changes. Discard them and switch notes?" in
  needsConfirm = false \/ confirms env [] question = true ->
  handle (onSelectNote s id) env s =
  (Normal tt,
   if needsConfirm then [Asked question true] else [],
   mkState (notes s) id (editorTitle s) (editorContent s) (isDirty s)
           (isLoading s) (isSaving s) (isDeleting s) (error s) (info s)).
Proof.
  intros needsConfirm question H. subst needsConfirm question. unfold handle, onSelectNote.
  destruct (isDirty s && negb (isNullish (selectedId s)) && negb (sameString id (selectedId s))).
  - destruct H as [H|H]; [discriminate|]. cbn. rewrite H. reflexivity.
  - reflexivity.
Qed.

(** ** Save *)

Section MoreSaveProperties.
Variable trim : string -> string.
Variable trimTypeError : jsval -> jsval.

(** X12: With no selected note, or one whose id is falsy (the number
    zero, the empty string), Save and Delete return at once: nothing is
    asked, nothing is requested, and the state is as it was. *)
Theorem onSave_onDelete_ignore_falsy_id (s : State) (env : Env) :
  truthy (optProp (selectedNote s) "id") = false ->
  handle (onSave trim trimTypeError s) env s = (Normal tt, [], s) /\
  handle (onDelete s) env s = (Normal tt, [], s).
Proof.
  intros H. unfold handle, onSave, onDelete. cbv zeta. rewrite H. split; reflexivity.
Qed.

(** X13: A draft title that is not a string makes Save fail before any
    request: [editorTitle.trim()] throws, the error shown is the message of
    the TypeError the engine throws for that value (the fallback text when
    it has none), and the collection, the selection and the dirty flag are
    as before. *)
Theorem onSave_non_string_title_sends_nothing (s : State) (env : Env) :
  truthy (optProp (selectedNote s) "id") = true ->
  (forall t, editorTitle s <> JStr t) ->
  let r := handle (onSave trim trimTypeError s) env s in
  completion r = Normal tt /\ trace r = [] /\
  notes (finalState r) = notes s /\ selectedId (finalState r) = selectedId s /\
  isDirty (finalState r) = isDirty s /\ isSaving (finalState r) = false /\
  error (finalState r) = messageOf (trimTypeError (editorTitle s)) "Failed to save note.".
Proof.
  intros Hid Ht r. subst r. unfold handle, onSave. rewrite Hid. cbn.
  destruct (editorTitle s) eqn:E; try (cbn; repeat split; reflexivity).
  exfalso. exact (Ht _ eq_refl).
Qed.

(** X14: When the update succeeds and its response carries no id, Save
    refreshes keeping the selection; the draft is then clean and marked
    saved whether or not that refresh succeeds, and the collection is the
    refreshed one or, when the refresh fails, the earlier one. *)
Theorem onSave_response_without_id_refreshes
    (s : State) (env : Env) (t : string) (updated : jsval) :
  truthy (optProp (selectedNote s) "id") = true ->
  editorTitle s = JStr t ->
  let call := run (updateNote (optProp (selectedNote s) "id")
                     (savePayload (JStr (trim t)) (editorContent s))) env [] s in
  completion call = Normal updated ->
  isNullish (prop (normalizeNote (updated ||| JObj ∅)) "id") = true ->
  let s' := finalState (handle (onSave trim trimTypeError s) env s) in
  isDirty s' = false /\ info s' = "Saved." /\ isSaving s' = false /\
  notes s' = match completion (run listNotes env (trace call) s) with
             | Normal data => normalizeAll data
             | Abrupt _ => notes s
             end.
Proof.
  intros Hid Ht call Hok Hnid s'. subst s' call. unfold handle, onSave.
  rewrite Hid, Ht. cbn. rewrite run_updateNote in *.
  repeat (progress run_step).
  destruct (attemptEncoded _ _ env []) as [[d|e'] tr']; cbn in *; [|discriminate].
  injection Hok as ->. rewrite Hnid. rewrite run_bind.
  match goal with
  | |- context [run (refreshNotes s true) env ?tr ?st] =>
      pose proof (refreshNotes_notes s true env tr st) as Hnotes;
      destruct (refreshNotes_frame s true env tr st)
        as (evs & st' & Hrun & _ & _ & _ & _ & _ & _ & _ & _ & _)
  end.
  rewrite Hrun in *. unfold finalState in *. cbn in *.
  repeat (split; [reflexivity|]). rewrite Hnotes.
  rewrite !run_listNotes. reflexivity.
Qed.

(** X15: Every update request of Save carries the draft's content as it
    is, and as title the trimmed draft title, or [Untitled] when trimming
    leaves nothing: a string that is never empty. *)
Theorem onSave_never_sends_empty_title (s : State) (env : Env) (q : Request) :
  In q (requestsOf (trace (handle (onSave trim trimTypeError s) env s))) ->
  method q = "PUT" ->
  exists t,
    editorTitle s = JStr t /\
    let title := if String.eqb (trim t) "" then "Untitled" else trim t in
    body q = Some (JObj (<["title" := JStr title]> (<["content" := editorContent s]> ∅))) /\
    title <> "".
Proof.
  unfold handle, onSave. destruct (truthy (optProp (selectedNote s) "id")); cbn; [|tauto].
  assert (Hpayload : forall t,
             let title := if String.eqb (trim t) "" then "Untitled" else trim t in
             Some (savePayload (JStr (trim t)) (editorContent s)) =
             Some (JObj (<["title" := JStr title]> (<["content" := editorContent s]> ∅))) /\
             title <> "").
  { intros t. unfold savePayload, falsy_or. cbn.
    destruct (String.eqb_spec (trim t) ""); cbn; split; try reflexivity; auto. }
  destruct (editorTitle s) as [| | | |t| |]; cbn; try tauto.
  repeat (progress run_step). unfold attemptEncoded.
  destruct (encodeURIComponent (optProp (selectedNote s) "id")) as [encoded|e]; cbn; [|tauto].
  set (r1 := PUT "/notes" encoded (savePayload (JStr (trim t)) (editorContent s))).
  set (r2 := PUT "/api/notes" encoded (savePayload (JStr (trim t)) (editorContent s))).
  destruct (attemptTwice_requests r1 r2 env []) as (evs & Htr & Hreq).
  assert (Hput : forall q, In q (requestsOf evs) -> exists t0,
             JStr t = JStr t0 /\
             let title := if String.eqb (trim t0) "" then "Untitled" else trim t0 in
             body q = Some (JObj (<["title" := JStr title]> (<["content" := editorContent s]> ∅))) /\
             title <> "").
  { intros q' Hq.
    assert (Hq' : q' = r1 \/ q' = r2)
      by (destruct Hreq as [Hreq|Hreq]; rewrite Hreq in Hq; simpl in Hq; intuition).
    exists t. split; [reflexivity|]. destruct Hq' as [->| ->]; apply Hpayload. }
  destruct (attemptTwice r1 r2 env []) as [[d|e] tr']; cbn in Htr; subst tr'; cbn.
  - destruct (isNullish (prop (normalizeNote (d ||| JObj ∅)) "id")).
    + rewrite run_bind.
      match goal with
      | |- context [run (refreshNotes s true) env ?tr ?st] =>
          destruct (refreshNotes_frame s true env tr st)
            as (gets & st' & Hrun & Hgets & _)
      end.
      rewrite Hrun. unfold trace. cbn. rewrite requestsOf_app.
      intros Hq Hm. apply in_app_or in Hq. destruct Hq as [Hq|Hq]; [exact (Hput q Hq)|].
      exfalso. destruct Hgets as [Hg|Hg]; rewrite Hg in Hq; simpl in Hq;
        repeat (destruct Hq as [<-|Hq]; [discriminate Hm|]); exact Hq.
    + cbn. unfold trace. cbn. intros Hq _. exact (Hput q Hq).
  - unfold trace. cbn. intros Hq _. exact (Hput q Hq).
Qed.
End MoreSaveProperties.

(** ** Delete *)

(** X16: When the delete call throws, the collection, the selection,
    the draft and the dirty flag are as before, the error is the message of
    the failure, and the deleting flag is down again. *)
Theorem onDelete_failure_keeps_everything (s : State) (env : Env) (e : jsval) :
  truthy (optProp (selectedNote s) "id") = true ->
  (forall tr msg, confirms env tr msg = true) ->
  completion (run (deleteNote (optProp (selectedNote s) "id")) env
                [Asked "Delete this note? This cannot be undone." true] s) = Abrupt e ->
  let s' := finalState (handle (onDelete s) env s) in
  notes s' = notes s /\ selectedId s' = selectedId s /\
  editorTitle s' = editorTitle s /\ editorContent s' = editorContent s /\
  isDirty s' = isDirty s /\ isDeleting s' = false /\
  error s' = messageOf e "Failed to delete note.".
Proof.
  intros Hid Hyes Hfail s'. subst s'. unfold handle, onDelete. cbv zeta. rewrite Hid. cbn.
  rewrite Hyes. cbn. rewrite run_deleteNote in Hfail.
  repeat (progress run_step).
  destruct (attemptEncoded _ _ env _) as [[d|e'] tr']; cbn in *; [discriminate|].
  injection Hfail as ->. unfold finalState. cbn. repeat split; reflexivity.
Qed.

(** X17: A declined Delete requests nothing: the collection, the
    selection, the draft and the dirty flag are as before. *)
Theorem onDelete_declined_requests_nothing (s : State) (env : Env) :
  (forall tr msg, confirms env tr msg = false) ->
  let r := handle (onDelete s) env s in
  completion r = Normal tt /\ requestsOf (trace r) = [] /\
  notes (finalState r) = notes s /\ selectedId (finalState r) = selectedId s /\
  editorTitle (finalState r) = editorTitle s /\ editorContent (finalState r) = editorContent s /\
  isDirty (finalState r) = isDirty s /\ disableActions (finalState r) = disableActions s.
Proof.
  intros Hno r. subst r. unfold handle, onDelete. cbv zeta.
  destruct (truthy _); cbn; [|repeat split; reflexivity].
  rewrite Hno. cbn. repeat split; reflexivity.
Qed.

(** X18: The updates of a successful Delete, applied to a store
    whose selection has meanwhile moved to a note of another id, remove the
    deleted note from that store's collection and leave the newer selection
    alone. *)
Theorem onDelete_keeps_newer_selection
    (s st : State) (env : Env) (n : obj) (v : jsval) :
  selectedNote s = Some n ->
  truthy (prop n "id") = true ->
  (forall tr msg, confirms env tr msg = true) ->
  completion (run (deleteNote (prop n "id")) env
                [Asked "Delete this note? This cannot be undone." true] st) = Normal v ->
  sameString (selectedId st) (prop n "id") = false ->
  let st' := finalState (run (onDelete s) env [] st) in
  notes st' = withoutId (prop n "id") (notes st) /\
  selectedId st' = selectedId st /\
  isDirty st' = false.
Proof.
  intros Hsel Hid Hyes Hok Hmoved st'. subst st'. unfold onDelete. rewrite Hsel.
  cbn [optProp]. rewrite Hid. cbn. rewrite Hyes. cbn. rewrite run_deleteNote in Hok.
  repeat (progress run_step).
  destruct (attemptEncoded _ _ env _) as [[d|e'] tr']; cbn in *; [|discriminate].
  repeat (progress run_step). unfold finalState. cbn. rewrite Hmoved. cbn.
  repeat split; reflexivity.
Qed.

(** ** New note *)

Lemma run_onNewNote_confirmed (s : State) (env : Env) :
  (forall tr msg, confirms env tr msg = true) ->
  run (onNewNote s) env [] s =
  run (newNoteBody s) env (newNoteAsked s)
      (applyUpdate (setInfo "") (applyUpdate (setError (JStr "")) s)).
Proof.
  intros Hyes. unfold onNewNote, newNoteAsked. repeat (progress run_step).
  destruct (isDirty s && negb (isNullish (selectedId s))); cbn; [rewrite Hyes|]; reflexivity.
Qed.

(** X19: When the created note comes back with an id, it is put at the
    head of the collection and selected, and the draft is [Untitled] with
    empty content, marked dirty. *)
Theorem onNewNote_prepends_and_selects (s : State) (env : Env) (created : jsval) :
  (forall tr msg, confirms env tr msg = true) ->
  completion (run (createNote NEW_NOTE) env (newNoteAsked s) s) = Normal created ->
  isNullish (prop (normalizeNote (created ||| JObj ∅)) "id") = false ->
  let normalized := normalizeNote (created ||| JObj ∅) in
  let s' := finalState (handle (onNewNote s) env s) in
  notes s' = normalized :: notes s /\
  selectedId s' = prop normalized "id" /\
  selectedNote s' = Some normalized /\
  editorTitle s' = JStr "Untitled" /\ editorContent s' = JStr "" /\
  isDirty s' = true /\ isSaving s' = false.
Proof.
  intros Hyes Hok Hid normalized s'. subst s'. unfold handle.
  rewrite (run_onNewNote_confirmed s env Hyes). unfold newNoteBody.
  rewrite run_createNote in Hok. fold NEW_NOTE.
  repeat (progress run_step).
  destruct (attemptTwice _ _ env _) as [[d|e'] tr']; cbn in *; [|discriminate].
  injection Hok as ->. rewrite Hid. repeat (progress run_step).
  unfold finalState, selectedNote. cbn. fold normalized.
  rewrite sameString_refl. repeat split; reflexivity.
Qed.

(** X20: When creating fails, nothing is added: the collection, the
    selection, the draft and the dirty flag are as before, the error is the
    message of the failure, and the saving flag is down again. *)
Theorem onNewNote_failure_adds_nothing (s : State) (env : Env) (e : jsval) :
  (forall tr msg, confirms env tr msg = true) ->
  completion (run (createNote NEW_NOTE) env (newNoteAsked s) s) = Abrupt e ->
  let s' := finalState (handle (onNewNote s) env s) in
  notes s' = notes s /\ selectedId s' = selectedId s /\
  editorTitle s' = editorTitle s /\ editorContent s' = editorContent s /\
  isDirty s' = isDirty s /\ isSaving s' = false /\
  error s' = messageOf e "Failed to create note.".
Proof.
  intros Hyes Hfail s'. subst s'. unfold handle.
  rewrite (run_onNewNote_confirmed s env Hyes). unfold newNoteBody.
  rewrite run_createNote in Hfail. fold NEW_NOTE.
  repeat (progress run_step).
  destruct (attemptTwice _ _ env _) as [[d|e'] tr']; cbn in *; [discriminate|].
  injection Hfail as ->. unfold finalState. cbn. repeat split; reflexivity.
Qed.

(** X21: When the created note comes back without an id, the
    collection is refreshed and the first fetched note selected; if that
    refresh fails, the collection and the selection stay as they were.
    Either way the draft becomes [Untitled] with empty content, marked
    dirty. *)
Theorem onNewNote_response_without_id (s : State) (env : Env) (created : jsval) :
  (forall tr msg, confirms env tr msg = true) ->
  let call := run (createNote NEW_NOTE) env (newNoteAsked s) s in
  completion call = Normal created ->
  isNullish (prop (normalizeNote (created ||| JObj ∅)) "id") = true ->
  let s' := finalState (handle (onNewNote s) env s) in
  editorTitle s' = JStr "Untitled" /\ editorContent s' = JStr "" /\
  isDirty s' = true /\ isSaving s' = false /\
  match completion (run listNotes env (trace call) s) with
  | Normal data =>
      notes s' = normalizeAll data /\ selectedId s' = firstId (normalizeAll data)
  | Abrupt _ => notes s' = notes s /\ selectedId s' = selectedId s
  end.
Proof.
  intros Hyes call Hok Hid s'. subst s' call. unfold handle.
  rewrite (run_onNewNote_confirmed s env Hyes). unfold newNoteBody.
  rewrite run_createNote in *. fold NEW_NOTE.
  repeat (progress run_step).
  destruct (attemptTwice _ _ env _) as [[d|e'] tr']; cbn in *; [|discriminate].
  injection Hok as ->. rewrite Hid. rewrite run_bind.
  unfold refreshNotes. repeat (progress run_step). rewrite !run_listNotes.
  unfold finalState, completion, trace. cbn.
  destruct (attemptTwice _ _ env tr') as [[data|e] tr'']; cbn; repeat split; reflexivity.
Qed.

(** X22: A declined New note requests nothing and leaves the
    collection, the selection, the draft and the dirty flag as they were. *)
Theorem onNewNote_declined_requests_nothing (s : State) (env : Env) :
  isDirty s = true ->
  isNullish (selectedId s) = false ->
  (forall tr msg, confirms env tr msg = false) ->
  let r := handle (onNewNote s) env s in
  completion r = Normal tt /\ requestsOf (trace r) = [] /\
  notes (finalState r) = notes s /\ selectedId (finalState r) = selectedId s /\
  editorTitle (finalState r) = editorTitle s /\ editorContent (finalState r) = editorContent s /\
  isDirty (finalState r) = true /\ disableActions (finalState r) = disableActions s.
Proof.
  intros Hd Hsel Hno r. subst r. unfold handle, onNewNote.
  repeat (progress run_step). rewrite Hd, Hsel. cbn. rewrite Hno. cbn.
  repeat split; assumption || reflexivity.
Qed.

(** ** Busy flags *)

Lemma disableActions_false (st : State) :
  isLoading st = false -> isSaving st = false -> isDeleting st = false ->
  disableActions st = false.
Proof. unfold disableActions. intros -> -> ->. reflexivity. Qed.

Ltac use_refresh_frame :=
  match goal with
  | |- context [run (refreshNotes ?s ?k) ?env ?tr ?st] =>
      let evs := fresh "evs" in
      let st' := fresh "st'" in
      let Hrun := fresh "Hrun" in
      destruct (refreshNotes_frame s k env tr st)
        as (evs & st' & Hrun & _ & _ & _ & _ & ? & ? & ? & _ & _);
      rewrite Hrun
  end.

(** X23: No handler leaves the application busy: when no load, save or
    delete is under way before a handler runs, none is once it has settled,
    whatever the server and the user do. *)
Theorem handlers_release_busy_flags (trim : string -> string)
    (trimTypeError : jsval -> jsval) (s : State) (env : Env) :
  disableActions s = false ->
  (forall keep, disableActions (finalState (handle (refreshNotes s keep) env s)) = false) /\
  (forall id, disableActions (finalState (handle (onSelectNote s id) env s)) = false) /\
  disableActions (finalState (handle (onNewNote s) env s)) = false /\
  disableActions (finalState (handle (onSave trim trimTypeError s) env s)) = false /\
  disableActions (finalState (handle (onDelete s) env s)) = false.
Proof.
  intros Hs. pose proof Hs as Hflags. unfold disableActions in Hflags.
  apply orb_false_elim in Hflags. destruct Hflags as [Hflags Hx].
  apply orb_false_elim in Hflags. destruct Hflags as [Hl Hv].
  unfold handle. repeat split.
  - intros keep. use_refresh_frame. unfold finalState. cbn.
    apply disableActions_false; congruence.
  - intros id. unfold onSelectNote.
    destruct (isDirty s && _ && _); cbn; [destruct (confirms env [] _); cbn|]; exact Hs.
  - assert (Hbody : forall tr st, isLoading st = false -> isDeleting st = false ->
                disableActions (finalState (run (newNoteBody s) env tr st)) = false).
    { intros tr st Hl' Hx'. unfold newNoteBody. repeat (progress run_step).
      destruct (attemptTwice _ _ env tr) as [[d|e] tr']; cbn.
      - destruct (isNullish (prop (normalizeNote (d ||| JObj ∅)) "id")).
        + rewrite run_bind. use_refresh_frame. cbn.
          apply disableActions_false; cbn in *; congruence.
        + cbn. apply disableActions_false; assumption || reflexivity.
      - apply disableActions_false; assumption || reflexivity. }
    unfold onNewNote. repeat (progress run_step).
    destruct (isDirty s && _); cbn.
    + destruct (confirms env [] _); cbn; [apply Hbody; assumption|].
      apply disableActions_false; assumption.
    + apply Hbody; assumption.
  - unfold onSave. destruct (truthy _); cbn; [|exact Hs].
    repeat (progress run_step).
    destruct (editorTitle s); cbn; try (apply disableActions_false; assumption || reflexivity).
    repeat (progress run_step).
    destruct (attemptEncoded _ _ env []) as [[d|e] tr']; cbn;
      [|apply disableActions_false; assumption || reflexivity].
    destruct (isNullish (prop (normalizeNote (d ||| JObj ∅)) "id")).
    + rewrite run_bind. use_refresh_frame. cbn.
      apply disableActions_false; cbn in *; congruence.
    + cbn. apply disableActions_false; assumption || reflexivity.
  - unfold onDelete. cbv zeta. destruct (truthy _); cbn; [|exact Hs].
    destruct (confirms env [] _); cbn; [|apply disableActions_false; assumption].
    repeat (progress run_step).
    destruct (attemptEncoded _ _ env _) as [[d|e] tr']; cbn;
      apply disableActions_false; assumption || reflexivity.
Qed.

(** ** Mount, edits and discard *)

(** X25: The load on mount ends with the loading flag down and a clean
    draft; when listing succeeds the first fetched note with an id is
    selected (none when there is no note), and when it fails the collection
    stays empty with nothing selected and the failure's message shown. *)
Theorem onMount_loads_and_selects_first (env : Env) :
  let s' := finalState (handle (onMount initialState) env initialState) in
  isLoading s' = false /\ isDirty s' = false /\ disableActions s' = false /\
  match completion (run listNotes env [] initialState) with
  | Normal data =>
      notes s' = normalizeAll data /\
      selectedId s' = match normalizeAll data with
                      | [] => JNull
                      | first :: _ => prop first "id"
                      end /\
      error s' = JStr ""
  | Abrupt e =>
      notes s' = [] /\ selectedId s' = JNull /\ error s' = messageOf e "Failed to load notes."
  end.
Proof.
  unfold handle, onMount. repeat (progress run_step).
  unfold refreshNotes. repeat (progress run_step). rewrite !run_listNotes.
  unfold completion, finalState.
  destruct (attemptTwice _ _ env []) as [[d|e] tr']; cbn; [|repeat split; reflexivity].
  destruct (normalizeAll (listShape d)) as [|n rest]; cbn; repeat split; reflexivity.
Qed.

(** X26: After an edit of the title or of the content, whatever the
    value typed, selecting a note of another id asks for confirmation when
    a note is selected; after a confirmed Discard it asks nothing. *)
Theorem edits_arm_and_discard_disarms_the_guard
    (st : State) (v id : jsval) (n : obj) (env : Env) :
  isNullish (selectedId st) = false ->
  sameString id (selectedId st) = false ->
  (forall tr msg, confirms env tr msg = true) ->
  let question := "You have unsaved changes. Discard them and switch notes?" in
  let titled := finalState (run (onEditorTitleChange v) env [] st) in
  let written := finalState (run (onEditorContentChange v) env [] st) in
  let discarded := finalState (run (onDiscard n) env [] written) in
  trace (handle (onSelectNote titled id) env titled) = [Asked question true] /\
  trace (handle (onSelectNote written id) env written) = [Asked question true] /\
  trace (handle (onSelectNote discarded id) env discarded) = [] /\
  editorTitle discarded = (prop n "title" ||| JStr "") /\
  editorContent discarded = (prop n "content" ||| JStr "").
Proof.
  intros Hsel Hne Hyes question titled written discarded.
  subst question titled written discarded. unfold handle, onSelectNote, onDiscard. cbn.
  rewrite !Hyes. cbn. rewrite Hsel, Hne. cbn. rewrite !Hyes. repeat split; reflexivity.
Qed.

(** ** The sorted view, further *)

Section MoreSorting.
Context {A : Type}.
Variable cmp : A -> A -> option Z.

Lemma insertSorted_filter_out (p : A -> bool) x l :
  p x = false -> List.filter p (insertSorted cmp x l) = List.filter p l.
Proof.
  intros Hx. induction l as [|y l IH]; simpl; [rewrite Hx; reflexivity|].
  destruct (keepsBefore cmp x y); simpl; [rewrite Hx; reflexivity|].
  rewrite IH. reflexivity.
Qed.

Lemma insertSorted_filter_in (p : A -> bool) x l :
  (forall a b, p a = true -> p b = true -> keepsBefore cmp a b = true) ->
  p x = true -> List.filter p (insertSorted cmp x l) = x :: List.filter p l.
Proof.
  intros Hp Hx. induction l as [|y l IH]; simpl; [rewrite Hx; reflexivity|].
  destruct (keepsBefore cmp x y) eqn:E; simpl; [rewrite Hx; reflexivity|].
  destruct (p y) eqn:Hy; [rewrite (Hp x y Hx Hy) in E; discriminate|exact IH].
Qed.

Lemma arraySort_stable (p : A -> bool) l :
  (forall a b, p a = true -> p b = true -> keepsBefore cmp a b = true) ->
  List.filter p (arraySort cmp l) = List.filter p l.
Proof.
  intros Hp. induction l as [|x l IH]; simpl; [reflexivity|].
  destruct (p x) eqn:Hx.
  - rewrite insertSorted_filter_in by assumption. rewrite IH. reflexivity.
  - rewrite insertSorted_filter_out by assumption. exact IH.
Qed.

Lemma arraySort_sorted_fixed (R : A -> A -> Prop) l :
  (forall a b, R a b -> keepsBefore cmp a b = true) ->
  StronglySorted R l -> arraySort cmp l = l.
Proof.
  intros HR. induction 1 as [|a l Hs IH Ha]; simpl; [reflexivity|].
  rewrite IH. destruct l as [|y l]; simpl; [reflexivity|].
  inversion Ha; subst. rewrite HR by assumption. reflexivity.
Qed.
End MoreSorting.

Lemma viewOrder_keepsBefore Date_parse localeCompare a b :
  viewOrder Date_parse localeCompare a b ->
  keepsBefore (compareNotes Date_parse localeCompare) a b = true.
Proof.
  intros (ta & tb & Ha & Hb & H). unfold keepsBefore, compareNotes. rewrite Ha, Hb.
  destruct (Z.eqb_spec tb ta) as [E|E]; simpl; apply Z.leb_le; [|lia].
  destruct H as [H|[_ H]]; [lia|exact H].
Qed.

(** X27: The sorted view always holds exactly the notes of the
    collection, each as many times as the collection does, also when dates
    are invalid. *)
Theorem sortedNotes_holds_the_collection
    (Date_parse : string -> option Z) (localeCompare : string -> string -> Z)
    (notes : list obj) :
  Permutation notes (sortedNotes Date_parse localeCompare notes) /\
  length (sortedNotes Date_parse localeCompare notes) = length notes.
Proof.
  assert (H : Permutation notes (sortedNotes Date_parse localeCompare notes))
    by apply arraySort_perm.
  split; [exact H|]. symmetry. apply Permutation_length, H.
Qed.

(** X28: Sorting the sorted view again changes nothing, when dates are
    valid. *)
Theorem sortedNotes_idempotent
    (Date_parse : string -> option Z) (localeCompare : string -> string -> Z)
    (notes : list obj) :
  (forall a b, 0 < localeCompare a b -> localeCompare b a <= 0) ->
  (forall a b c, localeCompare a b <= 0 -> localeCompare b c <= 0 -> localeCompare a c <= 0) ->
  Forall (fun n => noteTime Date_parse n <> None) notes ->
  sortedNotes Date_parse localeCompare (sortedNotes Date_parse localeCompare notes)
  = sortedNotes Date_parse localeCompare notes.
Proof.
  intros Htotal Htrans Hvalid.
  apply (arraySort_sorted_fixed _ (viewOrder Date_parse localeCompare)).
  - apply viewOrder_keepsBefore.
  - apply sortedNotes_strongly_sorted; assumption.
Qed.

(** X29: When every date is valid and the title comparison is total and
    transitive, notes that have the same effective time and the same title
    stay in the order of the collection. *)
Theorem sortedNotes_keeps_order_of_equals
    (Date_parse : string -> option Z) (localeCompare : string -> string -> Z)
    (notes : list obj) (t : Z) (title : string) :
  (forall a b, 0 < localeCompare a b -> localeCompare b a <= 0) ->
  (forall a b c, localeCompare a b <= 0 -> localeCompare b c <= 0 -> localeCompare a c <= 0) ->
  Forall (fun n => noteTime Date_parse n <> None) notes ->
  let same := fun n : obj =>
    bool_decide (noteTime Date_parse n = Some t /\ titleKey n = title) in
  List.filter same (sortedNotes Date_parse localeCompare notes) = List.filter same notes.
Proof.
  intros Htotal _ _ same. apply arraySort_stable. intros a b Ha Hb.
  apply bool_decide_eq_true in Ha, Hb. destruct Ha as [Ha Ka], Hb as [Hb Kb].
  unfold keepsBefore, compareNotes. rewrite Ha, Hb.
  rewrite Z.eqb_refl, Ka, Kb. simpl. apply Z.leb_le.
  destruct (Z_le_gt_dec (localeCompare title title) 0) as [H|H]; [exact H|].
  apply Htotal. lia.
Qed.

(** X30: A list item shows the time its note is sorted by, as the
    host prints it; it shows nothing when the note has no truthy timestamp
    (and is sorted as of epoch zero) or when its date is invalid. *)
Theorem noteListTime_is_the_sort_time
    (Date_parse : string -> option Z) (toLocaleString : Z -> string) (n : obj) :
  noteListTime Date_parse toLocaleString n =
  if truthy (prop n "updatedAt" ||| prop n "createdAt") then
    match noteTime Date_parse n with
    | Some t => toLocaleString t
    | None => ""
    end
  else "".
Proof.
  unfold noteListTime, formatTimestamp, noteTime, effectiveTimestamp.
  destruct (truthy (prop n "updatedAt" ||| prop n "createdAt")) eqn:E; simpl; [|reflexivity].
  unfold falsy_or at 2. rewrite E. reflexivity.
Qed.

(** ** The further properties on concrete cases *)

Lemma parseJsonOrThrow_rejects_non_2xx_witness :
  parseJsonOrThrow Cases.JSON_parse Cases.JSON_stringify Cases.notFound =
    Abrupt (JObj (<["message" := JStr "Request failed (404): no such route"]>
                 (<["status" := JNum 404]> ∅))) /\
  getProp (httpError Cases.JSON_parse Cases.JSON_stringify Cases.notFound) "status" = JNum 404.
Proof.
  destruct (parseJsonOrThrow_rejects_non_2xx Cases.JSON_parse Cases.JSON_stringify
              Cases.notFound eq_refl) as (H & _ & Hs & _).
  split; [exact H|exact Hs].
Defined.

Lemma parseJsonOrThrow_tolerates_non_json_witness :
  exists v,
    parseJsonOrThrow Cases.JSON_parse Cases.JSON_stringify Cases.htmlPage = Normal v /\
    (v = JNull \/ v = JObj (<["raw" := JStr "<html></html>"]> ∅)) /\
    listShape v = [] /\
    isNullish (prop (normalizeNote (v ||| JObj ∅)) "id") = true.
Proof.
  apply (parseJsonOrThrow_tolerates_non_json Cases.JSON_parse Cases.JSON_stringify
           Cases.htmlPage); [reflexivity|right; reflexivity].
Defined.

Lemma listNotes_keeps_non_json_primary_witness :
  exists v,
    run listNotes (Cases.serving Cases.htmlPage) [] initialState =
    (Normal [], [Requested (GET "/notes") (Resolved v)], initialState).
Proof.
  apply (listNotes_keeps_non_json_primary Cases.JSON_parse Cases.JSON_stringify
           Cases.sameOrigin (fun _ _ _ => Responded Cases.htmlPage) (fun _ _ => true)
           [] initialState Cases.htmlPage); [reflexivity|reflexivity|right; reflexivity].
Defined.

Lemma updateNote_deleteNote_try_in_order_witness :
  run (deleteNote (JStr "b/2")) (Sample.answering JNull) [] initialState =
  (Normal JNull, [Requested (DELETE "/notes" "b%2F2") (Resolved JNull)], initialState).
Proof.
  destruct (updateNote_deleteNote_try_in_order (JStr "b/2") JNull "b%2F2"
              (Sample.answering JNull) [] initialState eq_refl) as [_ H].
  exact H.
Defined.

Lemma createNote_primary_success_posts_once_witness :
  run (createNote NEW_NOTE) (Sample.answering (JObj (<["id" := JNum 9]> ∅))) [] initialState =
  (Normal (JObj (<["id" := JNum 9]> ∅)),
   [Requested (POST "/notes" NEW_NOTE) (Resolved (JObj (<["id" := JNum 9]> ∅)))],
   initialState).
Proof.
  apply (createNote_primary_success_posts_once NEW_NOTE (JObj (<["id" := JNum 9]> ∅))
           (Sample.answering (JObj (<["id" := JNum 9]> ∅))) [] initialState).
  reflexivity.
Defined.

Lemma notePath_same_exactly_for_same_id_witness :
  joinPath "/notes" "1" = joinPath "/notes" "1" <-> sameString (JNum 1) (JStr "1") = true.
Proof.
  apply (notePath_same_exactly_for_same_id "/notes" (JNum 1) (JStr "1") "1" "1");
    reflexivity.
Defined.

Lemma refreshNotes_selection_is_valid_witness :
  let data := [JObj (<["id" := JNum 3]> ∅); JObj (<["title" := JStr "no id"]> ∅)] in
  let s' := finalState (handle (refreshNotes Sample.editing true)
                               (Sample.answering (JArr data)) Sample.editing) in
  notes s' = normalizeAll data /\
  (exists n, selectedNote s' = Some n /\ In n (normalizeAll data)) /\
  selectedId s' = JNum 3.
Proof.
  intros data s'.
  destruct (refreshNotes_selection_is_valid Sample.editing true
              (Sample.answering (JArr data)) data eq_refl) as (Hn & Hs & Hid).
  split; [exact Hn|]. split; [exact Hs|exact Hid].
Defined.

Lemma onSelectNote_switches_witness :
  handle (onSelectNote Sample.editing (JStr "b/2")) (Sample.answering JNull) Sample.editing =
  (Normal tt,
   [Asked "You have unsaved changes. Discard them and switch notes?" true],
   mkState [Sample.noteA; Sample.noteB] (JStr "b/2") (JStr "A") (JStr "edited") true
           false false false (JStr "") "").
Proof.
  apply (onSelectNote_switches Sample.editing (JStr "b/2") (Sample.answering JNull)).
  right. reflexivity.
Defined.

Lemma onSave_onDelete_ignore_falsy_id_witness :
  selectedNote Cases.zeroSelected = Some Cases.noteZero /\
  handle (onSave Sample.trim Cases.trimTypeError Cases.zeroSelected) (Sample.answering JNull) Cases.zeroSelected
    = (Normal tt, [], Cases.zeroSelected) /\
  handle (onDelete Cases.zeroSelected) (Sample.answering JNull) Cases.zeroSelected
    = (Normal tt, [], Cases.zeroSelected).
Proof.
  split; [reflexivity|].
  apply (onSave_onDelete_ignore_falsy_id Sample.trim Cases.trimTypeError Cases.zeroSelected (Sample.answering JNull)).
  reflexivity.
Defined.

Lemma onSave_non_string_title_sends_nothing_witness :
  let r := handle (onSave Sample.trim Cases.trimTypeError Cases.numberTitled) (Sample.answering JNull)
                  Cases.numberTitled in
  completion r = Normal tt /\ trace r = [] /\
  notes (finalState r) = [Sample.noteA; Sample.noteB] /\ selectedId (finalState r) = JNum 1 /\
  isDirty (finalState r) = true /\ isSaving (finalState r) = false /\
  error (finalState r) = JStr "editorTitle.trim is not a function".
Proof.
  apply (onSave_non_string_title_sends_nothing Sample.trim Cases.trimTypeError Cases.numberTitled
           (Sample.answering JNull)); [reflexivity|discriminate].
Defined.

Lemma onSave_response_without_id_refreshes_witness :
  let s' := finalState (handle (onSave Sample.trim Cases.trimTypeError Sample.editing)
                               (Sample.answering (JArr [JObj (<["id" := JNum 1]> ∅)]))
                               Sample.editing) in
  isDirty s' = false /\ info s' = "Saved." /\ isSaving s' = false /\
  notes s' = [normalizeNote (JObj (<["id" := JNum 1]> ∅))].
Proof.
  destruct (onSave_response_without_id_refreshes Sample.trim Cases.trimTypeError Sample.editing
              (Sample.answering (JArr [JObj (<["id" := JNum 1]> ∅)])) "A"
              (JArr [JObj (<["id" := JNum 1]> ∅)])) as (Hd & Hi & Hs & Hn);
    [reflexivity|reflexivity|reflexivity|reflexivity|].
  split; [exact Hd|]. split; [exact Hi|]. split; [exact Hs|].
  rewrite Hn. vm_compute. reflexivity.
Defined.

Lemma onSave_never_sends_empty_title_witness :
  exists t,
    editorTitle Sample.editing = JStr t /\
    let title := if String.eqb (Sample.trim t) "" then "Untitled" else Sample.trim t in
    body (PUT "/notes" "1" (savePayload (JStr "A") (JStr "edited"))) =
      Some (JObj (<["title" := JStr title]> (<["content" := editorContent Sample.editing]> ∅))) /\
    title <> "".
Proof.
  apply (onSave_never_sends_empty_title Sample.trim Cases.trimTypeError Sample.editing
           Sample.failing (PUT "/notes" "1" (savePayload (JStr "A") (JStr "edited"))));
    [left; reflexivity|reflexivity].
Defined.

Lemma onDelete_failure_keeps_everything_witness :
  let s' := finalState (handle (onDelete Sample.editing) Cases.failingConfirmed Sample.editing) in
  notes s' = [Sample.noteA; Sample.noteB] /\ selectedId s' = JNum 1 /\
  editorTitle s' = JStr "A" /\ editorContent s' = JStr "edited" /\
  isDirty s' = true /\ isDeleting s' = false /\
  error s' = JStr "Request failed (500) /api/notes/1".
Proof.
  apply (onDelete_failure_keeps_everything Sample.editing Cases.failingConfirmed
           (Sample.failure "500" (DELETE "/api/notes" "1")));
    [reflexivity|intros; reflexivity|reflexivity].
Defined.

Lemma onDelete_declined_requests_nothing_witness :
  let r := handle (onDelete Sample.editing) Sample.failing Sample.editing in
  completion r = Normal tt /\ requestsOf (trace r) = [] /\
  notes (finalState r) = [Sample.noteA; Sample.noteB] /\ selectedId (finalState r) = JNum 1 /\
  editorTitle (finalState r) = JStr "A" /\ editorContent (finalState r) = JStr "edited" /\
  isDirty (finalState r) = true /\ disableActions (finalState r) = false.
Proof.
  apply (onDelete_declined_requests_nothing Sample.editing Sample.failing).
  intros; reflexivity.
Defined.

Lemma onDelete_keeps_newer_selection_witness :
  let st' := finalState (run (onDelete Sample.editing) (Sample.answering JNull) [] Cases.movedOn) in
  notes st' = [Sample.noteB] /\ selectedId st' = JStr "b/2" /\ isDirty st' = false.
Proof.
  apply (onDelete_keeps_newer_selection Sample.editing Cases.movedOn (Sample.answering JNull)
           Sample.noteA JNull); [reflexivity|reflexivity|intros; reflexivity|reflexivity|reflexivity].
Defined.

Lemma onNewNote_prepends_and_selects_witness :
  let normalized := normalizeNote (JObj (<["id" := JNum 9]> ∅)) in
  let s' := finalState (handle (onNewNote Sample.editing)
                               (Sample.answering (JObj (<["id" := JNum 9]> ∅))) Sample.editing) in
  notes s' = [normalized; Sample.noteA; Sample.noteB] /\
  selectedId s' = JNum 9 /\
  selectedNote s' = Some normalized /\
  editorTitle s' = JStr "Untitled" /\ editorContent s' = JStr "" /\
  isDirty s' = true /\ isSaving s' = false.
Proof.
  pose proof (onNewNote_prepends_and_selects Sample.editing
                (Sample.answering (JObj (<["id" := JNum 9]> ∅))) (JObj (<["id" := JNum 9]> ∅))
                (fun _ _ => eq_refl) eq_refl eq_refl) as H.
  vm_compute in H. vm_compute. exact H.
Defined.

Lemma onNewNote_failure_adds_nothing_witness :
  let s' := finalState (handle (onNewNote Sample.editing) Cases.failingConfirmed Sample.editing) in
  notes s' = [Sample.noteA; Sample.noteB] /\ selectedId s' = JNum 1 /\
  editorTitle s' = JStr "A" /\ editorContent s' = JStr "edited" /\
  isDirty s' = true /\ isSaving s' = false /\
  error s' = JStr "Request failed (500) /api/notes".
Proof.
  apply (onNewNote_failure_adds_nothing Sample.editing Cases.failingConfirmed
           (Sample.failure "500" (POST "/api/notes" NEW_NOTE)));
    [intros; reflexivity|reflexivity].
Defined.

Lemma onNewNote_response_without_id_witness :
  let s' := finalState (handle (onNewNote Sample.editing) (Sample.answering JNull)
                               Sample.editing) in
  editorTitle s' = JStr "Untitled" /\ editorContent s' = JStr "" /\
  isDirty s' = true /\ isSaving s' = false /\
  notes s' = [] /\ selectedId s' = JNull.
Proof.
  destruct (onNewNote_response_without_id Sample.editing (Sample.answering JNull) JNull)
    as (Ht & Hc & Hd & Hs & Hn & Hsel); [intros; reflexivity|reflexivity|reflexivity|].
  repeat split; assumption.
Defined.

Lemma onNewNote_declined_requests_nothing_witness :
  let r := handle (onNewNote Sample.editing) Sample.failing Sample.editing in
  completion r = Normal tt /\ requestsOf (trace r) = [] /\
  notes (finalState r) = [Sample.noteA; Sample.noteB] /\ selectedId (finalState r) = JNum 1 /\
  editorTitle (finalState r) = JStr "A" /\ editorContent (finalState r) = JStr "edited" /\
  isDirty (finalState r) = true /\ disableActions (finalState r) = false.
Proof.
  apply (onNewNote_declined_requests_nothing Sample.editing Sample.failing);
    [reflexivity|reflexivity|intros; reflexivity].
Defined.

Lemma handlers_release_busy_flags_witness :
  disableActions (finalState (handle (onSave Sample.trim Cases.trimTypeError Sample.editing) Sample.failing
                                     Sample.editing)) = false.
Proof.
  destruct (handlers_release_busy_flags Sample.trim Cases.trimTypeError Sample.editing Sample.failing eq_refl)
    as (_ & _ & _ & H & _).
  exact H.
Defined.

Lemma handlers_keep_ids_witness :
  idsPresent (notes (finalState (handle (onSave Sample.trim Cases.trimTypeError Sample.editing)
                                        (Sample.answering (JObj (<["id" := JNum 1]> ∅)))
                                        Sample.editing))).
Proof.
  destruct (handlers_keep_ids Sample.trim Cases.trimTypeError Sample.editing
              (Sample.answering (JObj (<["id" := JNum 1]> ∅)))) as (_ & _ & _ & H & _).
  - repeat constructor.
  - exact H.
Defined.

Lemma edits_arm_and_discard_disarms_the_guard_witness :
  let question := "You have unsaved changes. Discard them and switch notes?" in
  let env := Sample.answering JNull in
  let written := finalState (run (onEditorContentChange (JStr "")) env [] Cases.movedOn) in
  let discarded := finalState (run (onDiscard Sample.noteB) env [] written) in
  trace (handle (onSelectNote written (JNum 1)) env written) = [Asked question true] /\
  trace (handle (onSelectNote discarded (JNum 1)) env discarded) = [].
Proof.
  intros question env written discarded.
  destruct (edits_arm_and_discard_disarms_the_guard Cases.movedOn (JStr "") (JNum 1)
              Sample.noteB env) as (_ & Hw & Hd & _);
    [reflexivity|reflexivity|intros; reflexivity|].
  split; [exact Hw|exact Hd].
Defined.

Lemma sortedNotes_idempotent_witness :
  let view := sortedNotes Sample.Date_parse Sample.localeCompare
                [Cases.first_b; Cases.only_a; Cases.second_b] in
  sortedNotes Sample.Date_parse Sample.localeCompare view = view.
Proof.
  apply (sortedNotes_idempotent Sample.Date_parse Sample.localeCompare
           [Cases.first_b; Cases.only_a; Cases.second_b]).
  - apply sample_localeCompare_total.
  - apply sample_localeCompare_trans.
  - repeat constructor; discriminate.
Defined.

Lemma sortedNotes_keeps_order_of_equals_witness :
  let same := fun n : obj =>
    bool_decide (noteTime Sample.Date_parse n = Some 0 /\ titleKey n = "b") in
  List.filter same (sortedNotes Sample.Date_parse Sample.localeCompare
                      [Cases.first_b; Cases.only_a; Cases.second_b])
  = List.filter same [Cases.first_b; Cases.only_a; Cases.second_b].
Proof.
  apply (sortedNotes_keeps_order_of_equals Sample.Date_parse Sample.localeCompare
           [Cases.first_b; Cases.only_a; Cases.second_b] 0 "b").
  - apply sample_localeCompare_total.
  - apply sample_localeCompare_trans.
  - repeat constructor; discriminate.
Defined.

Example sortedNotes_stable_sample :
  sortedNotes Sample.Date_parse Sample.localeCompare
    [Cases.first_b; Cases.only_a; Cases.second_b]
  = [Cases.only_a; Cases.first_b; Cases.second_b].
Proof. vm_compute. reflexivity. Qed.
